(** * Availability and booking services over a document store

    A shallow embedding of the availability service
    ([src/services/availabilityService.ts]) and of the availability check
    of [src/lib/calendar.ts].

    The services are thin wrappers around a hosted document store.  The store
    is an external collaborator; it is modelled here by the part of its
    documented behaviour the services rely on:

    - a database is a finite map from collection names to collections, a
      collection a finite map from document ids to documents, a document a
      finite map from field names to values;
    - [setDoc] replaces a document, or with the merge option overwrites the
      fields it is given and keeps the others (an array is one value and is
      replaced as a whole); [updateDoc] does the same but rejects a missing
      document; [addDoc] draws a 20 character id and creates the document
      under it, rejecting an id that is taken;
    - a query with range filters on a field returns the documents that have
      a value of the bound's type in range, ordered by that field and then
      by document id; strings compare by their bytes;
    - every call may be rejected by the store (network, permission, ...).

    One flow runs at a time: a service call is a function from the world
    before to a result and the world after.  The clock, the faults of the
    store and the random source are oracles of the world, consumed through
    counters.  Document ids are taken as given (one path segment).  Console
    output is modelled for the listeners of the two subscription functions
    only, where it is all that happens to a store error.

    The second part covers the rest of [src/lib/calendar.ts] that does not
    depend on the wall-clock date, and the submit handler of
    [src/firebase/booking/ClientDetailsCard.tsx], the caller of
    [createBooking]. *)

From Stdlib Require Import ZArith String Ascii List DecimalString.
From Stdlib Require OrderedTypeEx.
From stdpp Require Import gmap strings list sorting fin_maps.

Local Open Scope string_scope.

(** ** Data model *)

Module TimeSlot.
Record t := mk {
  time : string;          (* HH:mm *)
  isAvailable : bool;
  bookedBy : option string
}.
End TimeSlot.

Inductive Status := pending | confirmed | cancelled.

Definition Status_text (s : Status) : string :=
  match s with
  | pending => "pending"
  | confirmed => "confirmed"
  | cancelled => "cancelled"
  end.

Module Booking.
Record t := mk {
  id : option string;
  serviceId : string;
  serviceName : string;
  date : string;
  time : string;
  clientName : string;
  clientEmail : string;
  clientPhone : string;
  clientMessage : option string;
  status : Status
}.
End Booking.

(** Field values of stored documents.  The only arrays the services store
    are arrays of time slots. *)
Inductive Value :=
| VString (s : string)
| VBoolean (b : bool)
| VTimestamp (millis : Z)
| VArray (slots : list TimeSlot.t).

Abbreviation DocumentData := (gmap string Value).
Abbreviation CollectionData := (gmap string DocumentData).

(** What a rejected promise carries. *)
Inductive JsError :=
| FirestoreError (code : string)      (* raised by the store *)
| TypeError (message : string)        (* raised by the language runtime *)
| Error (message : string).           (* [new Error(message)] *)

(** ** The world: store contents and oracles *)

Record World := mkWorld {
  db : gmap string CollectionData;
  clock : nat -> Z;                   (* successive readings of the clock *)
  ticks : nat;                        (* readings taken so far *)
  fault : nat -> option string;       (* error code of the n-th store call *)
  calls : nat;                        (* store calls made so far *)
  random : nat -> nat;                (* random source of the id generator *)
  draws : nat;                        (* random draws made so far *)
  rejections : list JsError           (* errors the store raised, latest first *)
}.

Definition with_db (f : gmap string CollectionData -> gmap string CollectionData)
    (w : World) : World :=
  mkWorld (f (db w)) (clock w) (ticks w) (fault w) (calls w) (random w)
          (draws w) (rejections w).

Definition tick (w : World) : World :=
  mkWorld (db w) (clock w) (S (ticks w)) (fault w) (calls w) (random w)
          (draws w) (rejections w).

Definition count_call (w : World) : World :=
  mkWorld (db w) (clock w) (ticks w) (fault w) (S (calls w)) (random w)
          (draws w) (rejections w).

Definition draw (n : nat) (w : World) : World :=
  mkWorld (db w) (clock w) (ticks w) (fault w) (calls w) (random w)
          (n + draws w) (rejections w).

Definition record_rejection (e : JsError) (w : World) : World :=
  mkWorld (db w) (clock w) (ticks w) (fault w) (calls w) (random w)
          (draws w) (e :: rejections w).

(** The documents of a collection; a collection that was never written is
    empty. *)
Definition docs (name : string) (w : World) : CollectionData :=
  default ∅ (db w !! name).

Definition write_doc (name key : string) (data : DocumentData)
    (w : World) : World :=
  with_db (fun d => <[name := <[key := data]> (default ∅ (d !! name))]> d) w.

(** ** Promises: state and rejection *)

Inductive Result (A : Type) :=
| Ok (a : A)
| Throw (e : JsError).
Arguments Ok {A} a.
Arguments Throw {A} e.

Definition Promise (A : Type) : Type := World -> Result A * World.

Definition ret {A} (a : A) : Promise A := fun w => (Ok a, w).

Definition throw {A} (e : JsError) : Promise A := fun w => (Throw e, w).

Definition bind {A B} (m : Promise A) (k : A -> Promise B) : Promise B :=
  fun w =>
    match m w with
    | (Ok a, w1) => k a w1
    | (Throw e, w1) => (Throw e, w1)
    end.

(** [try { m } catch (error) { handler error }] *)
Definition try_catch {A} (m : Promise A) (handler : JsError -> Promise A)
    : Promise A :=
  fun w =>
    match m w with
    | (Ok a, w1) => (Ok a, w1)
    | (Throw e, w1) => handler e w1
    end.

Notation "x <- m ;; k" := (bind m (fun x => k))
  (at level 100, m at next level, right associativity).
Notation "'await' m ;; k" := (bind m (fun _ => k))
  (at level 100, m at next level, right associativity).

(** [Promise.all]: every promise of the list has been started and settles;
    the store serves the calls in the order they were issued, so the first
    rejection is the one of the first failing element. *)
Fixpoint settle_all {A} (ms : list (Promise A)) (w : World)
    : list (Result A) * World :=
  match ms with
  | [] => ([], w)
  | m :: ms' =>
      let '(r, w1) := m w in
      let '(rs, w2) := settle_all ms' w1 in
      (r :: rs, w2)
  end.

Fixpoint first_rejection {A} (rs : list (Result A)) : Result (list A) :=
  match rs with
  | [] => Ok []
  | Throw e :: _ => Throw e
  | Ok a :: rs' =>
      match first_rejection rs' with
      | Ok l => Ok (a :: l)
      | Throw e => Throw e
      end
  end.

Definition Promise_all {A} (ms : list (Promise A)) : Promise (list A) :=
  fun w => let '(rs, w1) := settle_all ms w in (first_rejection rs, w1).

(** ** The document store *)

Definition Timestamp_now : Promise Z :=
  fun w => (Ok (clock w (ticks w)), tick w).

Record DocumentReference := doc { parent : string; ref_id : string }.

(** A store call: the store either rejects it with the error the fault
    oracle holds for it, or performs it. *)
Definition reject {A} (e : JsError) : Promise A :=
  fun w => (Throw e, record_rejection e w).

Definition store_call {A} (perform : Promise A) : Promise A :=
  fun w =>
    match fault w (calls w) with
    | Some code => reject (FirestoreError code) (count_call w)
    | None => perform (count_call w)
    end.

(** The snapshot of [getDoc]: [None] when [snap.exists()] is false, else
    [snap.data()]. *)
Definition getDoc (ref : DocumentReference) : Promise (option DocumentData) :=
  store_call (fun w => (Ok (docs (parent ref) w !! ref_id ref), w)).

Inductive SetOptions := overwrite | merge_true.

Definition setDoc (ref : DocumentReference) (data : DocumentData)
    (options : SetOptions) : Promise unit :=
  store_call (fun w =>
    let stored :=
      match options, docs (parent ref) w !! ref_id ref with
      | merge_true, Some old => data ∪ old
      | _, _ => data
      end in
    (Ok tt, write_doc (parent ref) (ref_id ref) stored w)).

Definition updateDoc (ref : DocumentReference) (data : DocumentData)
    : Promise unit :=
  store_call (fun w =>
    match docs (parent ref) w !! ref_id ref with
    | Some old => (Ok tt, write_doc (parent ref) (ref_id ref) (data ∪ old) w)
    | None => reject (FirestoreError "not-found") w
    end).

(** Ids of [addDoc]: 20 characters drawn from 62. *)
Definition AutoId_alphabet : string :=
  "ABCDEFGHIJKLMNOPQRSTUVWXYZabcdefghijklmnopqrstuvwxyz0123456789".

Definition AutoId_char (r : nat) : ascii :=
  match String.get (r mod 62) AutoId_alphabet with
  | Some c => c
  | None => "A"%char
  end.

Fixpoint AutoId_chars (n : nat) (rnd : nat -> nat) (from : nat) : string :=
  match n with
  | O => ""
  | S n' => String (AutoId_char (rnd from)) (AutoId_chars n' rnd (S from))
  end.

Definition AutoId_newId : Promise string :=
  fun w => (Ok (AutoId_chars 20 (random w) (draws w)), draw 20 w).

(** [addDoc] writes under a new id, on the condition that no document has
    it yet. *)
Definition createDoc (ref : DocumentReference) (data : DocumentData)
    : Promise unit :=
  store_call (fun w =>
    match docs (parent ref) w !! ref_id ref with
    | None => (Ok tt, write_doc (parent ref) (ref_id ref) data w)
    | Some _ => reject (FirestoreError "already-exists") w
    end).

Definition addDoc (collection : string) (data : DocumentData)
    : Promise DocumentReference :=
  newId <- AutoId_newId ;;
  let ref := doc collection newId in
  await createDoc ref data ;;
  ret ref.

(** Queries.  The services only filter with [>=] and [<=] against a text
    bound. *)
Inductive WhereFilterOp := op_ge | op_le.

Record QueryConstraint := where_ {
  fieldPath : string;
  opStr : WhereFilterOp;
  bound : string
}.

Record Query := query { from : string; constraints : list QueryConstraint }.

(** A collection reference used as a query has no constraint. *)
Definition collection (name : string) : Query := query name [].

Definition satisfies (data : DocumentData) (c : QueryConstraint) : bool :=
  match data !! fieldPath c with
  | Some (VString s) =>
      match opStr c with
      | op_ge => String.leb (bound c) s
      | op_le => String.leb s (bound c)
      end
  | _ => false
  end.

Definition matches (q : Query) (entry : string * DocumentData) : bool :=
  forallb (satisfies entry.2) (constraints q).

Definition text_of (f : string) (data : DocumentData) : string :=
  match data !! f with
  | Some (VString s) => s
  | _ => ""
  end.

(** The order of a result: by the first filtered field when there is one,
    then by document id. *)
Definition orderBy (q : Query) : option string :=
  match constraints q with
  | [] => None
  | c :: _ => Some (fieldPath c)
  end.

Definition precedes (by_field : option string)
    (x y : string * DocumentData) : bool :=
  match by_field with
  | None => String.leb x.1 y.1
  | Some f =>
      match String.compare (text_of f x.2) (text_of f y.2) with
      | Lt => true
      | Eq => String.leb x.1 y.1
      | Gt => false
      end
  end.

Definition run_query (q : Query) (c : CollectionData)
    : list (string * DocumentData) :=
  merge_sort (fun x y => Is_true (precedes (orderBy q) x y))
    (filter (fun entry => Is_true (matches q entry)) (map_to_list c)).

(** [snapshot.docs]: the pairs of [doc.id] and [doc.data()]. *)
Definition getDocs (q : Query) : Promise (list (string * DocumentData)) :=
  store_call (fun w => (Ok (run_query q (docs (from q) w)), w)).

(** Listeners.  [onSnapshot(q, onNext, onError)] registers the two
    functions with the store and returns at once; the store calls [onNext]
    with the current result of the query, first and after every change,
    or calls [onError] once with the error that ends the listening.  What a
    listener does is a list of effects; the texts of the console lines are
    left out. *)
Inductive Effect :=
| called_back (documents : list DocumentData)   (* [callback(documents)] *)
| console_log (count : nat)
| console_error (error : JsError).

Record Listener := onSnapshot {
  listened : Query;
  onNext : list (string * DocumentData) -> Result (list Effect);
  onError : JsError -> Result (list Effect)
}.

(** One delivery of the store to a listener. *)
Definition deliver (l : Listener) : Promise (list Effect) :=
  fun w =>
    match fault w (calls w) with
    | Some code =>
        (onError l (FirestoreError code),
         record_rejection (FirestoreError code) (count_call w))
    | None =>
        (onNext l (run_query (listened l) (docs (from (listened l)) w)),
         count_call w)
    end.

(** ** The availability service *)

Definition rethrow {A} (error : JsError) : Promise A := throw error.

Definition setDateAvailability (date : string) (isAvailable : bool)
    (slots : option (list TimeSlot.t)) : Promise unit :=
  let slots := default [] slots in      (* slots: TimeSlot[] = [] *)
  try_catch
    (let dateRef := doc "calendar" date in
     now <- Timestamp_now ;;
     setDoc dateRef
       {[ "date" := VString date;
          "isAvailable" := VBoolean isAvailable;
          "slots" := VArray slots;
          "updatedAt" := VTimestamp now ]}
       merge_true)
    rethrow.

Definition setBatchAvailability (dates : list string) (isAvailable : bool)
    : Promise unit :=
  try_catch
    (await Promise_all
       (map (fun date => setDateAvailability date isAvailable None) dates) ;;
     ret tt)
    rethrow.

Definition getDateAvailability (date : string)
    : Promise (option DocumentData) :=
  try_catch
    (let dateRef := doc "calendar" date in
     snap <- getDoc dateRef ;;
     ret snap)
    rethrow.

Definition getAvailabilityRange (startDate endDate : string)
    : Promise (list DocumentData) :=
  try_catch
    (let q := query "calendar"
                [where_ "date" op_ge startDate; where_ "date" op_le endDate] in
     snapshot <- getDocs q ;;
     ret ((fun d => d.2) <$> snapshot))
    rethrow.

(** Subscribe to availability changes in real-time.  The callback is the
    caller's; it returns or throws. *)
Definition subscribeToAvailability (startDate endDate : string)
    (callback : list DocumentData -> Result unit) : Listener :=
  let q := query "calendar"
             [where_ "date" op_ge startDate; where_ "date" op_le endDate] in
  onSnapshot q
    (fun snapshot =>
       let availability := (fun d => d.2) <$> snapshot in
       match callback availability with
       | Ok _ =>
           Ok [called_back availability; console_log (length availability)]
       | Throw e => Throw e
       end)
    (fun error => Ok [console_error error]).

(** ** Time slot booking *)

(** [data.slots || []] followed by the first use of the result as an array:
    an absent or falsy field gives the empty array, an array is itself, and
    any other value has no [map] method. *)
Definition slots_of (data : DocumentData) : Promise (list TimeSlot.t) :=
  match data !! "slots" with
  | None => ret []
  | Some (VArray l) => ret l
  | Some (VBoolean false) => ret []
  | Some (VString "") => ret []
  | Some _ => throw (TypeError "slots.map is not a function")
  end.

Definition booked (time clientEmail : string) : TimeSlot.t :=
  TimeSlot.mk time false (Some clientEmail).

(** The function mapped over the stored slots:
    [s.time === time ? { ...s, isAvailable: false, bookedBy: clientEmail } : s] *)
Definition rebind (time clientEmail : string) (s : TimeSlot.t) : TimeSlot.t :=
  if String.eqb (TimeSlot.time s) time
  then TimeSlot.mk (TimeSlot.time s) false (Some clientEmail)
  else s.

(* Update existing slot or add new slot *)
Definition updatedSlots (time clientEmail : string) (slots : list TimeSlot.t)
    : list TimeSlot.t :=
  let updatedSlots := map (rebind time clientEmail) slots in
  match find (fun s => String.eqb (TimeSlot.time s) time) slots with
  | None => (updatedSlots ++ [booked time clientEmail])%list
  | Some _ => updatedSlots
  end.

Definition bookTimeSlot (date time clientEmail : string) : Promise unit :=
  let dateRef := doc "calendar" date in
  snap <- getDoc dateRef ;;
  match snap with
  | None =>
      (* Create new date entry if missing *)
      now <- Timestamp_now ;;
      setDoc dateRef
        {[ "date" := VString date;
           "isAvailable" := VBoolean true;
           "slots" := VArray [booked time clientEmail];
           "updatedAt" := VTimestamp now ]}
        overwrite
  | Some data =>
      slots <- slots_of data ;;
      now <- Timestamp_now ;;
      updateDoc dateRef
        {[ "slots" := VArray (updatedSlots time clientEmail slots);
           "updatedAt" := VTimestamp now ]}
  end.

(** ** Bookings *)

Definition generic_failure : JsError :=
  Error "Booking failed. Please try again.".

(** The record [createBooking] builds; [String(x)] is the identity on text
    and [x || ''] turns an absent or empty message into the empty text. *)
Definition cleanBooking (booking : Booking.t) (createdAt updatedAt : Z)
    : DocumentData :=
  {[ "serviceId" := VString (Booking.serviceId booking);
     "serviceName" := VString (Booking.serviceName booking);
     "date" := VString (Booking.date booking);
     "time" := VString (Booking.time booking);
     "clientName" := VString (Booking.clientName booking);
     "clientEmail" := VString (Booking.clientEmail booking);
     "clientPhone" := VString (Booking.clientPhone booking);
     "clientMessage" := VString (default "" (Booking.clientMessage booking));
     "status" := VString (Status_text (Booking.status booking));
     "createdAt" := VTimestamp createdAt;
     "updatedAt" := VTimestamp updatedAt ]}.

Definition createBooking (booking : Booking.t) : Promise string :=
  try_catch
    (createdAt <- Timestamp_now ;;
     updatedAt <- Timestamp_now ;;
     docRef <- addDoc "bookings" (cleanBooking booking createdAt updatedAt) ;;
     (* Update calendar slot *)
     await bookTimeSlot (Booking.date booking) (Booking.time booking)
                        (Booking.clientEmail booking) ;;
     ret (ref_id docRef))
    (fun _ => throw generic_failure).

Definition getAllBookings : Promise (list DocumentData) :=
  try_catch
    (snapshot <- getDocs (collection "bookings") ;;
     ret ((fun d => d.2 ∪ {[ "id" := VString d.1 ]}) <$> snapshot))
    rethrow.

(** Subscribe to bookings in real-time. *)
Definition subscribeToBookings
    (callback : list DocumentData -> Result unit) : Listener :=
  onSnapshot (collection "bookings")
    (fun snapshot =>
       let bookings :=
         (fun d => d.2 ∪ {[ "id" := VString d.1 ]}) <$> snapshot in
       match callback bookings with
       | Ok _ => Ok [called_back bookings; console_log (length bookings)]
       | Throw e => Throw e
       end)
    (fun error => Ok [console_error error]).

Definition updateBookingStatus (bookingId : string) (status : Status)
    : Promise unit :=
  try_catch
    (let bookingRef := doc "bookings" bookingId in
     now <- Timestamp_now ;;
     updateDoc bookingRef
       {[ "status" := VString (Status_text status);
          "updatedAt" := VTimestamp now ]})
    rethrow.

(** ** The availability check of [src/lib/calendar.ts] *)

Module Calendar.

(** Modelled from the spec: the declarations of [CalendarDoc] and of its
    [TimeSlot] in [@/types] are not among the sources; the fields are the
    ones [calendar.ts] reads and writes. *)
Record TimeSlot := mkTimeSlot { time : string; available : bool }.

Record CalendarDoc := mkCalendarDoc {
  doc_available : bool;
  doc_slots : option (list TimeSlot)
}.

Definition isAvailable (calendarDoc : option CalendarDoc) : bool :=
  match calendarDoc with
  | None => true                       (* Default to available *)
  | Some d =>
      doc_available d &&
      match doc_slots d with
      | Some slots => existsb available slots
      | None => true
      end
  end.

End Calendar.

(** ** Sample worlds *)

Definition quiet_world (database : gmap string CollectionData) : World :=
  mkWorld database (fun n => 1717236000000 + Z.of_nat n)%Z 0
          (fun _ => None) 0 (fun n => n) 0 [].

Definition sample_slot : TimeSlot.t :=
  TimeSlot.mk "10:00" false (Some "a@x.com").

Definition sample_day : DocumentData :=
  {[ "date" := VString "2024-06-01";
     "isAvailable" := VBoolean true;
     "slots" := VArray [sample_slot];
     "updatedAt" := VTimestamp 1717000000000 ]}.

Definition sample_db : gmap string CollectionData :=
  {[ "calendar" := {[ "2024-06-01" := sample_day ]} ]}.

Definition sample_booking (s : Status) : Booking.t :=
  Booking.mk None "svc1" "Cut" "2024-06-01" "10:00" "A" "a@x.com" "+1" None s.


(** A store that rejects its [n]-th call (counted from 0) and no other. *)
Definition faulty_world (n : nat) (code : string)
    (database : gmap string CollectionData) : World :=
  mkWorld database (fun n => 1717236000000 + Z.of_nat n)%Z 0
          (fun k => if Nat.eqb k n then Some code else None) 0 (fun n => n) 0 [].

(** The value of a field of a stored document. *)
Definition stored (name key f : string) (w : World) : option Value :=
  docs name w !! key ≫= (fun data => data !! f).

(** The id [createBooking] draws in a world, and the world once its record
    is written. *)
Definition newBookingId (w : World) : string :=
  AutoId_chars 20 (random w) (draws w).

(** The store accepts the record of [createBooking]: the call is not
    rejected and the id drawn is not taken. *)
Definition record_accepted (w : World) : Prop :=
  fault w (calls w) = None /\ docs "bookings" w !! newBookingId w = None.

Definition booking_written (booking : Booking.t) (w : World) : World :=
  write_doc "bookings" (newBookingId w)
    (cleanBooking booking (clock w (ticks w)) (clock w (S (ticks w))))
    (count_call (draw 20 (tick (tick w)))).

(** Error propagation.  An operation re-raises store errors when, on every
    run, either the store raised nothing or it raised one error and the run
    ends with that very error. *)
Definition reraises {A} (op : Promise A) : Prop :=
  forall w,
    rejections (op w).2 = rejections w \/
    exists e, rejections (op w).2 = e :: rejections w /\ (op w).1 = Throw e.

(** An operation that ends with one fixed error whatever the store raised. *)
Definition replaces_errors {A} (op : Promise A) (substitute : JsError) : Prop :=
  forall w,
    rejections (op w).2 = rejections w \/
    exists code,
      rejections (op w).2 = FirestoreError code :: rejections w /\
      (op w).1 = Throw substitute /\
      substitute ≠ FirestoreError code.

(** A document dated within the bounds, both included. *)
Definition within (startDate endDate : string) (data : DocumentData) : bool :=
  match data !! "date" with
  | Some (VString d) => String.leb startDate d && String.leb d endDate
  | _ => false
  end.

(** Every calendar document carries its own id as its date.  The writes of
    this service keep it so. *)
Definition date_keyed (w : World) : Prop :=
  forall key data,
    docs "calendar" w !! key = Some data ->
    data !! "date" = Some (VString key).

(** The order of date keys: byte-wise lexicographic. *)
Definition date_le (a b : DocumentData) : Prop :=
  String.leb (text_of "date" a) (text_of "date" b) = true.

(** The outcomes of [bookTimeSlot], by what the store holds and answers. *)
Inductive bookTimeSlot_outcome (date time clientEmail : string) (w : World)
    : Result unit -> World -> Prop :=
| read_rejected code :
    fault w (calls w) = Some code ->
    bookTimeSlot_outcome date time clientEmail w
      (Throw (FirestoreError code))
      (record_rejection (FirestoreError code) (count_call w))
| create_rejected code :
    fault w (calls w) = None ->
    docs "calendar" w !! date = None ->
    fault w (S (calls w)) = Some code ->
    bookTimeSlot_outcome date time clientEmail w
      (Throw (FirestoreError code))
      (record_rejection (FirestoreError code)
         (count_call (tick (count_call w))))
| created :
    fault w (calls w) = None ->
    docs "calendar" w !! date = None ->
    fault w (S (calls w)) = None ->
    bookTimeSlot_outcome date time clientEmail w (Ok tt)
      (write_doc "calendar" date
         {[ "date" := VString date;
            "isAvailable" := VBoolean true;
            "slots" := VArray [booked time clientEmail];
            "updatedAt" := VTimestamp (clock w (ticks w)) ]}
         (count_call (tick (count_call w))))
| not_an_array data e :
    fault w (calls w) = None ->
    docs "calendar" w !! date = Some data ->
    slots_of data (count_call w) = (Throw e, count_call w) ->
    bookTimeSlot_outcome date time clientEmail w (Throw e) (count_call w)
| update_rejected data slots code :
    fault w (calls w) = None ->
    docs "calendar" w !! date = Some data ->
    slots_of data (count_call w) = (Ok slots, count_call w) ->
    fault w (S (calls w)) = Some code ->
    bookTimeSlot_outcome date time clientEmail w
      (Throw (FirestoreError code))
      (record_rejection (FirestoreError code)
         (count_call (tick (count_call w))))
| updated data slots :
    fault w (calls w) = None ->
    docs "calendar" w !! date = Some data ->
    slots_of data (count_call w) = (Ok slots, count_call w) ->
    fault w (S (calls w)) = None ->
    bookTimeSlot_outcome date time clientEmail w (Ok tt)
      (write_doc "calendar" date
         ({[ "slots" := VArray (updatedSlots time clientEmail slots);
             "updatedAt" := VTimestamp (clock w (ticks w)) ]} ∪ data)
         (count_call (tick (count_call w)))).

(** Unfolding of the store calls. *)
Ltac run_store :=
  unfold bind, try_catch, rethrow, getDoc, setDoc, updateDoc, createDoc, getDocs,
    store_call, reject, Timestamp_now, ret, throw in *;
  cbn [db clock ticks fault calls random draws rejections
       tick count_call draw record_rejection parent ref_id] in *.

(** ** The calendar module, continued *)

Definition getCalendar (date : string) : Promise (option DocumentData) :=
  try_catch
    (let docRef := doc "calendar" date in
     docSnap <- getDoc docRef ;;
     match docSnap with
     | Some data => ret (Some data)
     | None => ret None
     end)
    rethrow.

(** [updates] is a partial document: the fields the caller gives.  The
    spread comes first, so the time stamp replaces an [updatedAt] of the
    caller's. *)
Definition updateCalendar (date : string) (updates : DocumentData)
    : Promise unit :=
  try_catch
    (let docRef := doc "calendar" date in
     now <- Timestamp_now ;;
     setDoc docRef (<["updatedAt" := VTimestamp now]> updates) merge_true)
    rethrow.

(** [n.toString()] of a natural number. *)
Definition Number_toString (n : nat) : string :=
  NilZero.string_of_uint (Nat.to_uint n).

(** The first [n] characters of [padString] repeated; nothing when
    [padString] is empty. *)
Fixpoint pad_chars (n : nat) (padString rest : string) : string :=
  match n with
  | O => ""
  | S n' =>
      match rest with
      | String c rest' => String c (pad_chars n' padString rest')
      | EmptyString =>
          match padString with
          | String c rest' => String c (pad_chars n' padString rest')
          | EmptyString => ""
          end
      end
  end.

Definition padStart (targetLength : nat) (padString s : string) : string :=
  if Nat.leb targetLength (String.length s) then s
  else pad_chars (targetLength - String.length s) padString padString ++ s.

(** [for (let hour = first; hour <= 17; hour++) slots.push(...)], by the
    number of iterations left. *)
Fixpoint push_hours (iterations hour : nat) (slots : list Calendar.TimeSlot)
    : list Calendar.TimeSlot :=
  match iterations with
  | O => slots
  | S iterations' =>
      push_hours iterations' (S hour)
        (slots ++ [Calendar.mkTimeSlot
                     (padStart 2 "0" (Number_toString hour) ++ ":00") true])%list
  end.

Definition generateDefaultSlots : list Calendar.TimeSlot :=
  push_hours (17 + 1 - 9) 9 [].

(** ** The submit handler of the client details card *)

Module Service.
Record t := mk { id : option string; name : option string }.
End Service.

(** Modelled from the spec: the declaration of [BookingData] in
    [./BookingFlow] is not among the sources; the fields are the ones the
    card reads and writes, the date and the time being texts. *)
Module BookingData.
Record t := mk {
  service : option Service.t;
  date : option string;
  time : option string;
  bookingId : option string
}.
End BookingData.

Module FormData.
Record t := mk {
  name : string;
  email : string;
  phone : string;
  message : string
}.
End FormData.

Inductive SlotStatus := slot_available | slot_taken.

Inductive Toast :=
| toast_error (message : string)
| toast_success (message : string).

(** What the handler can change besides the store: the two state cells of
    the component, the notices shown, the calls of the [onSubmit] prop and
    the [bookingId] it assigns to its [bookingData] prop. *)
Module View.
Record t := mk {
  isSubmitting : bool;
  slotStatus : option SlotStatus;
  toasts : list Toast;                 (* latest first *)
  onSubmit_calls : list FormData.t;    (* latest first *)
  bookingId : option string
}.
End View.

(** A text as a condition: [null], [undefined] and the empty text are
    false. *)
Definition truthy (x : option string) : bool :=
  match x with
  | Some (String _ _) => true
  | _ => false
  end.

(** [new Date()] reads the same clock as [Timestamp.now()]. *)
Definition Date_now : Promise Z := Timestamp_now.

Definition handleSubmit (bookingData : BookingData.t) (formData : FormData.t)
    (view : View.t) (w : World) : View.t * World :=
  match BookingData.service bookingData with
  | Some service =>
      if truthy (BookingData.date bookingData)
         && truthy (BookingData.time bookingData)
      then
        (* setIsSubmitting(true) *)
        let '(_, w) := Date_now w in            (* createdAt, not used *)
        let '(_, w) := Date_now w in            (* updatedAt, not used *)
        let cleanBooking :=
          Booking.mk None
            (default "unknown" (Service.id service))
            (default "Unknown Service" (Service.name service))
            (default "" (BookingData.date bookingData))
            (default "" (BookingData.time bookingData))
            (FormData.name formData)
            (FormData.email formData)
            (FormData.phone formData)
            (Some (FormData.message formData))
            pending in
        match createBooking cleanBooking w with
        | (Ok bookingId, w) =>
            (View.mk false (Some slot_available)
               (toast_success "Booking created successfully!"
                  :: View.toasts view)
               (formData :: View.onSubmit_calls view)
               (Some bookingId),
             w)
        | (Throw _, w) =>
            (View.mk false (Some slot_taken)
               (toast_error "Failed to create booking. Slot may be taken."
                  :: View.toasts view)
               (View.onSubmit_calls view)
               (View.bookingId view),
             w)
        end
      else
        (View.mk (View.isSubmitting view) (View.slotStatus view)
           (toast_error "Missing booking information" :: View.toasts view)
           (View.onSubmit_calls view) (View.bookingId view),
         w)
  | None =>
      (View.mk (View.isSubmitting view) (View.slotStatus view)
         (toast_error "Missing booking information" :: View.toasts view)
         (View.onSubmit_calls view) (View.bookingId view),
       w)
  end.

Definition blank_view : View.t := View.mk false None [] [] None.

Definition sample_request : BookingData.t :=
  BookingData.mk (Some (Service.mk (Some "svc1") (Some "Cut")))
                 (Some "2024-06-01") (Some "10:00") None.

Definition sample_form : FormData.t := FormData.mk "A" "a@x.com" "+1" "".

(** The booking the handler passes to [createBooking]. *)
Definition submitted_booking (service : Service.t) (date time : string)
    (formData : FormData.t) : Booking.t :=
  Booking.mk None
    (default "unknown" (Service.id service))
    (default "Unknown Service" (Service.name service))
    date time
    (FormData.name formData) (FormData.email formData)
    (FormData.phone formData) (Some (FormData.message formData)) pending.

(** An operation keeps an invariant of the world. *)
Definition keeps {A} (inv : World -> Prop) (op : Promise A) : Prop :=
  forall w, inv w -> inv (op w).2.

(** A listener that only logs the error the store ends it with: nothing
    is raised and the callback is not called. *)
Definition logs_store_errors (l : Listener) : Prop :=
  forall w,
    rejections (deliver l w).2 = rejections w \/
    exists e,
      rejections (deliver l w).2 = e :: rejections w /\
      (deliver l w).1 = Ok [console_error e].

(** An operation that changes nothing in the store when it fails, and one
    that never changes the store. *)
Definition harmless_on_failure {A} (op : Promise A) : Prop :=
  forall w e, (op w).1 = Throw e -> db (op w).2 = db w.

Definition read_only {A} (op : Promise A) : Prop :=
  forall w, db (op w).2 = db w.

(** The fields [setDateAvailability] writes. *)
Definition availability_fields : list string :=
  ["date"; "isAvailable"; "slots"; "updatedAt"].

(** The date is marked with the flag and has no slots. *)
Definition marked (isAvailable : bool) (date : string) (w : World) : Prop :=
  stored "calendar" date "isAvailable" w = Some (VBoolean isAvailable) /\
  stored "calendar" date "slots" w = Some (VArray []).

(** A batch sends every write out, whatever becomes of the others: it
    makes one store call per date, and the date of every write the store
    serves is marked.  It ends well when all are served, and otherwise with
    the error of the first write the store rejected, unchanged. *)
Definition batch_reraises_first (dates : list string) (isAvailable : bool)
    : Prop :=
  forall w,
    let run := setBatchAvailability dates isAvailable w in
    calls run.2 = calls w + length dates /\
    (forall i date,
       dates !! i = Some date ->
       fault w (calls w + i) = None ->
       marked isAvailable date run.2) /\
    (((forall i, i < length dates -> fault w (calls w + i) = None) /\
      run.1 = Ok tt /\ rejections run.2 = rejections w) \/
     (exists i code later,
        i < length dates /\
        fault w (calls w + i) = Some code /\
        (forall j, j < i -> fault w (calls w + j) = None) /\
        run.1 = Throw (FirestoreError code) /\
        rejections run.2
          = (later ++ FirestoreError code :: rejections w)%list)).

(** A stored value that is neither an array nor false as a condition. *)
Definition truthy_non_array (v : Value) : bool :=
  match v with
  | VString (String _ _) => true
  | VBoolean true => true
  | VTimestamp _ => true
  | _ => false
  end.

(** A day closed by the administrator, with its one slot taken. *)
Definition closed_day : DocumentData :=
  {[ "date" := VString "2024-06-01";
     "isAvailable" := VBoolean false;
     "slots" := VArray [sample_slot];
     "updatedAt" := VTimestamp 1717000000000 ]}.

Definition closed_db : gmap string CollectionData :=
  {[ "calendar" := {[ "2024-06-01" := closed_day ]} ]}.

(** A day stored without a slots field, and one whose slots field is a
    text. *)
Definition bare_db : gmap string CollectionData :=
  {[ "calendar" :=
       {[ "2024-06-01" :=
            {[ "date" := VString "2024-06-01";
               "isAvailable" := VBoolean true ]} ]} ]}.

Definition broken_db : gmap string CollectionData :=
  {[ "calendar" :=
       {[ "2024-06-01" :=
            {[ "date" := VString "2024-06-01";
               "slots" := VString "none" ]} ]} ]}.

(** ** Equations of the store *)

Lemma docs_write_doc name key data w :
  docs name (write_doc name key data w) = <[key := data]> (docs name w).
Proof. unfold docs, write_doc; simpl. by rewrite lookup_insert_eq. Qed.

Lemma docs_write_doc_ne name name' key data w :
  name ≠ name' -> docs name' (write_doc name key data w) = docs name' w.
Proof.
  intros Hne. unfold docs, write_doc; simpl. by rewrite lookup_insert_ne.
Qed.

Lemma docs_tick name w : docs name (tick w) = docs name w.
Proof. reflexivity. Qed.

Lemma docs_count_call name w : docs name (count_call w) = docs name w.
Proof. reflexivity. Qed.

Lemma docs_draw name n w : docs name (draw n w) = docs name w.
Proof. reflexivity. Qed.

Lemma docs_record_rejection name e w :
  docs name (record_rejection e w) = docs name w.
Proof. reflexivity. Qed.

Create Rewrite HintDb world.
#[local] Hint Rewrite docs_tick docs_count_call docs_draw
  docs_record_rejection docs_write_doc : world.

Lemma getDoc_served ref w :
  fault w (calls w) = None ->
  getDoc ref w = (Ok (docs (parent ref) w !! ref_id ref), count_call w).
Proof. intros Hf. unfold getDoc, store_call. by rewrite Hf. Qed.

Lemma setDoc_served ref data options w :
  fault w (calls w) = None ->
  setDoc ref data options w =
    (Ok tt,
     write_doc (parent ref) (ref_id ref)
       match options, docs (parent ref) w !! ref_id ref with
       | merge_true, Some old => data ∪ old
       | _, _ => data
       end (count_call w)).
Proof. intros Hf. unfold setDoc, store_call. by rewrite Hf. Qed.

Lemma updateDoc_served ref data old w :
  fault w (calls w) = None ->
  docs (parent ref) w !! ref_id ref = Some old ->
  updateDoc ref data w =
    (Ok tt, write_doc (parent ref) (ref_id ref) (data ∪ old) (count_call w)).
Proof.
  intros Hf Hold. unfold updateDoc, store_call. rewrite Hf.
  change (docs (parent ref) (count_call w)) with (docs (parent ref) w).
  by rewrite Hold.
Qed.

Lemma store_call_rejected {A} (perform : Promise A) code w :
  fault w (calls w) = Some code ->
  store_call perform w =
    (Throw (FirestoreError code),
     record_rejection (FirestoreError code) (count_call w)).
Proof. intros Hf. unfold store_call. by rewrite Hf. Qed.

Lemma AutoId_chars_nonempty n rnd from : AutoId_chars (S n) rnd from ≠ "".
Proof. discriminate. Qed.

(** ** The availability service *)

(** X1: whatever was stored, a call that is served leaves the flag it was
    given, the slots it was given (none when the argument is left out) and
    the time of the call in the document of the date. *)
Lemma setDateAvailability_served date isAvailable slots w :
  fault w (calls w) = None ->
  exists w',
    setDateAvailability date isAvailable slots w = (Ok tt, w') /\
    stored "calendar" date "isAvailable" w' = Some (VBoolean isAvailable) /\
    stored "calendar" date "slots" w' = Some (VArray (default [] slots)) /\
    stored "calendar" date "updatedAt" w' = Some (VTimestamp (clock w (ticks w))).
Proof.
  intros Hf. eexists. split.
  - unfold setDateAvailability, try_catch, bind, Timestamp_now.
    rewrite setDoc_served by exact Hf. reflexivity.
  - unfold stored. autorewrite with world. rewrite lookup_insert_eq. simpl.
    destruct (docs "calendar" w !! date) as [old|]; simpl;
      repeat split; try reflexivity.
    all: apply lookup_union_Some_l; reflexivity.
Qed.

(** C1, at a date that has one booked slot: the call without a slots
    argument is served and the stored slots list is empty afterwards. *)
Theorem setDateAvailability_default_empties_slots :
  let w := quiet_world sample_db in
  let '(r, w') := setDateAvailability "2024-06-01" false None w in
  stored "calendar" "2024-06-01" "slots" w = Some (VArray [sample_slot]) /\
  r = Ok tt /\
  stored "calendar" "2024-06-01" "isAvailable" w' = Some (VBoolean false) /\
  stored "calendar" "2024-06-01" "slots" w' = Some (VArray []).
Proof. vm_compute. repeat split; reflexivity. Qed.

(** C8: a date without a stored document reads as absent, and the
    availability check answers true on an absent document. *)
Theorem getDateAvailability_absent date w :
  docs "calendar" w !! date = None ->
  fault w (calls w) = None ->
  exists r w',
    getDateAvailability date w = (Ok r, w') /\
    r = None /\
    forall view : DocumentData -> Calendar.CalendarDoc,
      Calendar.isAvailable (view <$> r) = true.
Proof.
  intros Habsent Hf.
  exists None, (count_call w). split; [|split; [reflexivity|]].
  - unfold getDateAvailability, try_catch, bind.
    rewrite getDoc_served by exact Hf. simpl. by rewrite Habsent.
  - intros view. reflexivity.
Qed.

Lemma getDateAvailability_absent_witness :
  exists r w',
    getDateAvailability "2024-07-01" (quiet_world sample_db) = (Ok r, w') /\
    r = None /\
    forall view : DocumentData -> Calendar.CalendarDoc,
      Calendar.isAvailable (view <$> r) = true.
Proof.
  apply (getDateAvailability_absent "2024-07-01" (quiet_world sample_db));
    reflexivity.
Defined.

(** ** Time slot booking *)

Lemma slots_of_pure data w :
  (exists slots, slots_of data w = (Ok slots, w)) \/
  (exists e, slots_of data w = (Throw e, w)).
Proof.
  unfold slots_of.
  destruct (data !! "slots") as [[[|? ?]|[|]| |]|]; run_store; eauto.
Qed.

Lemma slots_of_array data slots w :
  data !! "slots" = Some (VArray slots) -> slots_of data w = (Ok slots, w).
Proof. intros H. unfold slots_of. by rewrite H. Qed.

Lemma bookTimeSlot_cases date time clientEmail w :
  bookTimeSlot_outcome date time clientEmail w
    (bookTimeSlot date time clientEmail w).1
    (bookTimeSlot date time clientEmail w).2.
Proof.
  unfold bookTimeSlot. run_store.
  destruct (fault w (calls w)) as [code|] eqn:Hread; simpl.
  { by apply read_rejected. }
  autorewrite with world.
  destruct (docs "calendar" w !! date) as [data|] eqn:Hdoc.
  - destruct (slots_of_pure data (count_call w)) as [[slots Hs]|[e Hs]];
      rewrite Hs; simpl.
    + destruct (fault w (S (calls w))) as [code|] eqn:Hwrite; simpl.
      * by eapply update_rejected.
      * autorewrite with world. rewrite Hdoc. by eapply updated.
    + by eapply not_an_array.
  - simpl. destruct (fault w (S (calls w))) as [code|] eqn:Hwrite; simpl.
    + by apply create_rejected.
    + by apply created.
Qed.

Section updatedSlots_facts.
Variables time clientEmail : string.

Lemma rebind_time s : TimeSlot.time (rebind time clientEmail s) = TimeSlot.time s.
Proof. unfold rebind. by destruct (String.eqb _ _). Qed.

Lemma rebind_at s : TimeSlot.time s = time -> rebind time clientEmail s = booked time clientEmail.
Proof.
  intros <-. unfold rebind, booked. by rewrite String.eqb_refl.
Qed.

Lemma rebind_elsewhere s : TimeSlot.time s ≠ time -> rebind time clientEmail s = s.
Proof.
  intros Hne. unfold rebind.
  destruct (String.eqb_spec (TimeSlot.time s) time); [done | reflexivity].
Qed.

Lemma find_time_None slots :
  find (fun s => String.eqb (TimeSlot.time s) time) slots = None <->
  Forall (fun s => TimeSlot.time s ≠ time) slots.
Proof.
  induction slots as [|s slots IH]; simpl.
  - split; [constructor | reflexivity].
  - destruct (String.eqb_spec (TimeSlot.time s) time) as [Heq|Hne].
    + split; [discriminate | intros HF; inversion HF; contradiction].
    + rewrite IH. split; [by constructor | intros HF; by inversion HF].
Qed.

(** The slot for the given time is in the result. *)
Lemma updatedSlots_booked slots :
  booked time clientEmail ∈ updatedSlots time clientEmail slots.
Proof.
  unfold updatedSlots.
  destruct (find _ slots) as [s|] eqn:Hfind.
  - apply find_some in Hfind as [Hin Heq].
    apply String.eqb_eq in Heq.
    rewrite <- (rebind_at s Heq).
    apply list_elem_of_In, in_map, Hin.
  - apply elem_of_app. right. apply list_elem_of_singleton. reflexivity.
Qed.

(** Every slot of the result with the given time is the booked one. *)
Lemma updatedSlots_bound slots s :
  s ∈ updatedSlots time clientEmail slots ->
  TimeSlot.time s = time ->
  s = booked time clientEmail.
Proof.
  assert (Hmap : forall l, s ∈ map (rebind time clientEmail) l -> TimeSlot.time s = time ->
                           s = booked time clientEmail).
  { intros l Hin Ht. apply list_elem_of_In, in_map_iff in Hin as (s0 & <- & _).
    apply rebind_at. by rewrite <- rebind_time. }
  unfold updatedSlots.
  destruct (find _ slots); [apply Hmap|].
  intros [Hin|Hin]%elem_of_app Ht; [by apply (Hmap slots)|].
  by apply list_elem_of_singleton in Hin.
Qed.

(** The slots for other times are kept as they were, in order. *)
Lemma updatedSlots_others slots :
  filter (fun s => TimeSlot.time s ≠ time)
         (updatedSlots time clientEmail slots) =
  filter (fun s => TimeSlot.time s ≠ time) slots.
Proof.
  assert (Hmap : forall l,
    filter (fun s => TimeSlot.time s ≠ time) (map (rebind time clientEmail) l) =
    filter (fun s => TimeSlot.time s ≠ time) l).
  { induction l as [|s l IH]; [reflexivity|]. simpl.
    destruct (decide (TimeSlot.time s = time)) as [Heq|Hne].
    - rewrite !filter_cons_False; [exact IH | by intros [] |].
      rewrite rebind_time. by intros [].
    - rewrite (rebind_elsewhere s Hne).
      rewrite !filter_cons_True by done. by rewrite IH. }
  unfold updatedSlots.
  destruct (find _ slots); [apply Hmap|].
  rewrite filter_app, Hmap.
  rewrite filter_cons_False by (by intros []).
  rewrite filter_nil. apply app_nil_r.
Qed.

(** With at most one slot per time there is exactly one for the time. *)
Lemma updatedSlots_one slots :
  NoDup (map TimeSlot.time slots) ->
  length (filter (fun s => TimeSlot.time s = time)
                 (updatedSlots time clientEmail slots)) = 1.
Proof.
  intros Hnd.
  assert (Hnone : forall l, Forall (fun s => TimeSlot.time s ≠ time) l ->
    filter (fun s => TimeSlot.time s = time) (map (rebind time clientEmail) l) = []).
  { induction l as [|s l IH]; [reflexivity|]. intros HF.
    inversion HF as [|? ? Hs Hl]; subst. simpl.
    rewrite filter_cons_False by (by rewrite rebind_time). by apply IH. }
  unfold updatedSlots.
  destruct (find _ slots) as [s0|] eqn:Hfind.
  - revert Hnd Hfind. induction slots as [|s l IH]; [discriminate|].
    simpl. intros Hnd Hfind. apply NoDup_cons in Hnd as [Hfresh Hnd].
    destruct (String.eqb_spec (TimeSlot.time s) time) as [Heq|Hne].
    + rewrite filter_cons_True by (by rewrite rebind_time).
      rewrite Hnone; [reflexivity|].
      apply Forall_forall. intros s1 Hin Ht. apply Hfresh.
      rewrite Heq, <- Ht. apply list_elem_of_In, in_map.
      by apply list_elem_of_In.
    + rewrite filter_cons_False by (by rewrite rebind_time). by apply IH.
  - apply find_time_None in Hfind.
    rewrite filter_app, (Hnone _ Hfind).
    by rewrite filter_cons_True.
Qed.

End updatedSlots_facts.

Lemma bookTimeSlot_run date time clientEmail w r w' :
  bookTimeSlot date time clientEmail w = (r, w') ->
  bookTimeSlot_outcome date time clientEmail w r w'.
Proof.
  intros Hrun. pose proof (bookTimeSlot_cases date time clientEmail w) as H.
  by rewrite Hrun in H.
Qed.

Lemma bookTimeSlot_updates date time clientEmail w data slots :
  docs "calendar" w !! date = Some data ->
  data !! "slots" = Some (VArray slots) ->
  fault w (calls w) = None ->
  fault w (S (calls w)) = None ->
  bookTimeSlot date time clientEmail w =
    (Ok tt,
     write_doc "calendar" date
       ({[ "slots" := VArray (updatedSlots time clientEmail slots);
           "updatedAt" := VTimestamp (clock w (ticks w)) ]} ∪ data)
       (count_call (tick (count_call w)))).
Proof.
  intros Hdoc Hslots Hread Hwrite.
  destruct (bookTimeSlot date time clientEmail w) as [r w'] eqn:Hrun.
  apply bookTimeSlot_run in Hrun.
  pose proof (slots_of_array data slots (count_call w) Hslots) as Hs.
  inversion Hrun; subst; congruence.
Qed.

(** A call that succeeds leaves a document for the date whose slots hold
    the booked slot, and no other slot for that time. *)
Lemma bookTimeSlot_booked date time clientEmail w w' :
  bookTimeSlot date time clientEmail w = (Ok tt, w') ->
  exists data slots,
    docs "calendar" w' !! date = Some data /\
    data !! "slots" = Some (VArray slots) /\
    booked time clientEmail ∈ slots /\
    forall s, s ∈ slots -> TimeSlot.time s = time -> s = booked time clientEmail.
Proof.
  intros Hrun. apply bookTimeSlot_run in Hrun.
  inversion Hrun; subst.
  - eexists _, [booked time clientEmail].
    rewrite docs_write_doc, lookup_insert_eq.
    split; [reflexivity|]. split; [reflexivity|].
    split; [by apply list_elem_of_singleton|].
    intros s Hin _. by apply list_elem_of_singleton in Hin.
  - eexists _, (updatedSlots time clientEmail slots).
    rewrite docs_write_doc, lookup_insert_eq.
    split; [reflexivity|]. split; [apply lookup_union_Some_l; reflexivity|].
    split; [apply updatedSlots_booked | apply updatedSlots_bound].
Qed.

(** The store's faults, clock and random source are not changed by a call;
    a call only touches the calendar document of its date, and only when
    it succeeds. *)
Lemma bookTimeSlot_frame date time clientEmail w r w' :
  bookTimeSlot date time clientEmail w = (r, w') ->
  fault w' = fault w /\
  (forall name, name ≠ "calendar" -> docs name w' = docs name w) /\
  (forall key, key ≠ date -> docs "calendar" w' !! key = docs "calendar" w !! key) /\
  (forall e, r = Throw e -> db w' = db w).
Proof.
  intros Hrun. apply bookTimeSlot_run in Hrun.
  inversion Hrun; subst; (split; [reflexivity|]).
  all: repeat split; try reflexivity; try discriminate.
  all: try (intros name Hne; by rewrite docs_write_doc_ne).
  all: intros key Hne; rewrite docs_write_doc; by rewrite lookup_insert_ne.
Qed.

(** C5: on a date without a document, a served call creates the document
    of that date, with the one slot booked for the client, and no other
    document. *)
Theorem bookTimeSlot_creates_date date time clientEmail w :
  docs "calendar" w !! date = None ->
  fault w (calls w) = None ->
  fault w (S (calls w)) = None ->
  exists w',
    bookTimeSlot date time clientEmail w = (Ok tt, w') /\
    docs "calendar" w' =
      <[date := {[ "date" := VString date;
                   "isAvailable" := VBoolean true;
                   "slots" := VArray [TimeSlot.mk time false (Some clientEmail)];
                   "updatedAt" := VTimestamp (clock w (ticks w)) ]}]>
        (docs "calendar" w) /\
    size (docs "calendar" w') = S (size (docs "calendar" w)) /\
    forall name, name ≠ "calendar" -> docs name w' = docs name w.
Proof.
  intros Habsent Hread Hwrite.
  destruct (bookTimeSlot date time clientEmail w) as [r w'] eqn:Hrun.
  pose proof (bookTimeSlot_frame _ _ _ _ _ _ Hrun) as (_ & Hother & _).
  apply bookTimeSlot_run in Hrun.
  inversion Hrun; subst; try congruence.
  eexists. split; [reflexivity|].
  rewrite docs_write_doc. autorewrite with world.
  split; [reflexivity|]. split; [|exact Hother].
  by apply map_size_insert_None.
Qed.

Lemma bookTimeSlot_creates_date_witness :
  exists w',
    bookTimeSlot "2024-07-01" "10:00" "a@x.com" (quiet_world sample_db)
      = (Ok tt, w') /\
    docs "calendar" w' =
      <["2024-07-01" :=
          {[ "date" := VString "2024-07-01";
             "isAvailable" := VBoolean true;
             "slots" := VArray [TimeSlot.mk "10:00" false (Some "a@x.com")];
             "updatedAt" := VTimestamp 1717236000000 ]}]>
        (docs "calendar" (quiet_world sample_db)) /\
    size (docs "calendar" w') = S (size (docs "calendar" (quiet_world sample_db))) /\
    forall name, name ≠ "calendar" ->
      docs name w' = docs name (quiet_world sample_db).
Proof.
  apply (bookTimeSlot_creates_date "2024-07-01" "10:00" "a@x.com"
           (quiet_world sample_db)); reflexivity.
Defined.

(** C6: after a first booking of a time, a second booking of the same time
    for another client is served without error and leaves the slot of that
    time bound to the second client. *)
Theorem bookTimeSlot_last_write_wins date time client1 client2 w w1 :
  client1 ≠ client2 ->
  bookTimeSlot date time client1 w = (Ok tt, w1) ->
  fault w1 (calls w1) = None ->
  fault w1 (S (calls w1)) = None ->
  exists w2 slots,
    bookTimeSlot date time client2 w1 = (Ok tt, w2) /\
    stored "calendar" date "slots" w2 = Some (VArray slots) /\
    TimeSlot.mk time false (Some client2) ∈ slots /\
    forall s, s ∈ slots -> TimeSlot.time s = time ->
      TimeSlot.isAvailable s = false /\ TimeSlot.bookedBy s = Some client2.
Proof.
  intros _ Hfirst Hread Hwrite.
  destruct (bookTimeSlot_booked _ _ _ _ _ Hfirst)
    as (data1 & slots1 & Hdoc1 & Hslots1 & _).
  pose proof (bookTimeSlot_updates date time client2 w1 data1 slots1
                Hdoc1 Hslots1 Hread Hwrite) as Hsecond.
  destruct (bookTimeSlot_booked _ _ _ _ _ Hsecond)
    as (data2 & slots2 & Hdoc2 & Hslots2 & Hin & Hbound).
  eexists _, slots2. split; [exact Hsecond|].
  unfold stored. rewrite Hdoc2. simpl. split; [exact Hslots2|].
  split; [exact Hin|].
  intros s Hs Ht. by rewrite (Hbound s Hs Ht).
Qed.

Lemma bookTimeSlot_last_write_wins_witness :
  exists w2 slots,
    bookTimeSlot "2024-07-01" "10:00" "b@x.com"
      (bookTimeSlot "2024-07-01" "10:00" "a@x.com" (quiet_world sample_db)).2
      = (Ok tt, w2) /\
    stored "calendar" "2024-07-01" "slots" w2 = Some (VArray slots) /\
    TimeSlot.mk "10:00" false (Some "b@x.com") ∈ slots /\
    forall s, s ∈ slots -> TimeSlot.time s = "10:00" ->
      TimeSlot.isAvailable s = false /\ TimeSlot.bookedBy s = Some "b@x.com".
Proof.
  apply (bookTimeSlot_last_write_wins "2024-07-01" "10:00" "a@x.com" "b@x.com"
           (quiet_world sample_db)); [discriminate | reflexivity ..].
Defined.

(** C10: on a document with at most one slot per time, a served call keeps
    the slots of the other times as they were and in their order, and
    leaves exactly one slot for the given time. *)
Theorem bookTimeSlot_keeps_other_slots date time clientEmail w data slots :
  docs "calendar" w !! date = Some data ->
  data !! "slots" = Some (VArray slots) ->
  NoDup (map TimeSlot.time slots) ->
  fault w (calls w) = None ->
  fault w (S (calls w)) = None ->
  exists w' slots',
    bookTimeSlot date time clientEmail w = (Ok tt, w') /\
    stored "calendar" date "slots" w' = Some (VArray slots') /\
    filter (fun s => TimeSlot.time s ≠ time) slots' =
      filter (fun s => TimeSlot.time s ≠ time) slots /\
    length (filter (fun s => TimeSlot.time s = time) slots') = 1.
Proof.
  intros Hdoc Hslots Hnd Hread Hwrite.
  eexists _, (updatedSlots time clientEmail slots).
  split; [by eapply bookTimeSlot_updates|].
  split; [|split; [apply updatedSlots_others | by apply updatedSlots_one]].
  unfold stored. rewrite docs_write_doc, lookup_insert_eq. simpl.
  apply lookup_union_Some_l. reflexivity.
Qed.

Lemma bookTimeSlot_keeps_other_slots_witness :
  exists w' slots',
    bookTimeSlot "2024-06-01" "11:00" "b@x.com" (quiet_world sample_db)
      = (Ok tt, w') /\
    stored "calendar" "2024-06-01" "slots" w' = Some (VArray slots') /\
    filter (fun s => TimeSlot.time s ≠ "11:00") slots' =
      filter (fun s => TimeSlot.time s ≠ "11:00") [sample_slot] /\
    length (filter (fun s => TimeSlot.time s = "11:00") slots') = 1.
Proof.
  apply (bookTimeSlot_keeps_other_slots "2024-06-01" "11:00" "b@x.com"
           (quiet_world sample_db) sample_day [sample_slot]);
    try reflexivity.
  apply NoDup_singleton.
Defined.

(** ** Bookings *)

Lemma createBooking_rejected booking w code :
  fault w (calls w) = Some code ->
  createBooking booking w =
    (Throw generic_failure,
     record_rejection (FirestoreError code)
       (count_call (draw 20 (tick (tick w))))).
Proof.
  intros Hf. unfold createBooking, addDoc, AutoId_newId. run_store.
  by rewrite Hf.
Qed.

Lemma createBooking_id_taken booking w old :
  fault w (calls w) = None ->
  docs "bookings" w !! newBookingId w = Some old ->
  createBooking booking w =
    (Throw generic_failure,
     record_rejection (FirestoreError "already-exists")
       (count_call (draw 20 (tick (tick w))))).
Proof.
  intros Hf Htaken. unfold createBooking, addDoc, AutoId_newId. run_store.
  rewrite Hf. fold (newBookingId w). autorewrite with world.
  by rewrite Htaken.
Qed.

Lemma createBooking_written booking w :
  record_accepted w ->
  createBooking booking w =
    match bookTimeSlot (Booking.date booking) (Booking.time booking)
            (Booking.clientEmail booking) (booking_written booking w) with
    | (Ok _, w') => (Ok (newBookingId w), w')
    | (Throw _, w') => (Throw generic_failure, w')
    end.
Proof.
  intros [Hf Hfree]. unfold createBooking, addDoc, AutoId_newId. run_store.
  rewrite Hf. fold (newBookingId w). autorewrite with world.
  rewrite Hfree. fold (booking_written booking w).
  by destruct (bookTimeSlot _ _ _ (booking_written booking w)) as [[[]|e] w'].
Qed.

(** The three ways the write of the record can go. *)
Lemma record_accepted_or_not w :
  record_accepted w \/
  (exists code, fault w (calls w) = Some code) \/
  (fault w (calls w) = None /\
   exists old, docs "bookings" w !! newBookingId w = Some old).
Proof.
  unfold record_accepted.
  destruct (fault w (calls w)) as [code|]; [eauto|].
  destruct (docs "bookings" w !! newBookingId w) as [old|]; eauto.
Qed.

(** Whether or not the slot is booked afterwards, the record stays as it
    was written. *)
Lemma createBooking_record booking w :
  record_accepted w ->
  docs "bookings" (createBooking booking w).2 =
    <[newBookingId w :=
        cleanBooking booking (clock w (ticks w)) (clock w (S (ticks w)))]>
      (docs "bookings" w).
Proof.
  intros Hacc. rewrite (createBooking_written booking w Hacc).
  destruct (bookTimeSlot _ _ _ (booking_written booking w)) as [r w'] eqn:Hrun.
  apply bookTimeSlot_frame in Hrun as (_ & Hother & _).
  transitivity (docs "bookings" w').
  { by destruct r. }
  rewrite Hother by discriminate.
  unfold booking_written. by autorewrite with world.
Qed.

(** C2, at a booking whose status is confirmed: the record is written
    with the status confirmed, not pending. *)
Lemma createBooking_confirmed_stays_confirmed :
  let '(r, w') :=
    createBooking (sample_booking confirmed) (quiet_world sample_db) in
  r = Ok "ABCDEFGHIJKLMNOPQRST" /\
  stored "bookings" "ABCDEFGHIJKLMNOPQRST" "status" w'
    = Some (VString "confirmed") /\
  stored "bookings" "ABCDEFGHIJKLMNOPQRST" "status" w'
    ≠ Some (VString "pending").
Proof. vm_compute. repeat split; [reflexivity ..|discriminate]. Qed.

(** C2, as the code has it: the record written by [createBooking] carries
    the status of the input, and its two timestamps are the two readings
    of the clock taken when the record is built. *)
Theorem createBooking_writes_input_status booking w :
  record_accepted w ->
  let w' := (createBooking booking w).2 in
  let id := newBookingId w in
  stored "bookings" id "status" w'
    = Some (VString (Status_text (Booking.status booking))) /\
  stored "bookings" id "createdAt" w' = Some (VTimestamp (clock w (ticks w))) /\
  stored "bookings" id "updatedAt" w'
    = Some (VTimestamp (clock w (S (ticks w)))).
Proof.
  intros Hacc w' id. unfold stored, w', id.
  rewrite (createBooking_record booking w Hacc), lookup_insert_eq. simpl.
  repeat split; reflexivity.
Qed.

Lemma createBooking_writes_input_status_witness :
  let w := quiet_world sample_db in
  let w' := (createBooking (sample_booking cancelled) w).2 in
  let id := newBookingId w in
  stored "bookings" id "status" w' = Some (VString "cancelled") /\
  stored "bookings" id "createdAt" w' = Some (VTimestamp 1717236000000) /\
  stored "bookings" id "updatedAt" w' = Some (VTimestamp 1717236000001).
Proof.
  apply (createBooking_writes_input_status (sample_booking cancelled)
           (quiet_world sample_db)). split; reflexivity.
Defined.

(** C4: a call that succeeds returns a non-empty identifier, and the
    calendar document of the booking's date then holds a slot with the
    booking's time, unavailable and bound to the client's email. *)
Theorem createBooking_success booking w id w' :
  createBooking booking w = (Ok id, w') ->
  id ≠ "" /\
  exists data slots,
    docs "calendar" w' !! Booking.date booking = Some data /\
    data !! "slots" = Some (VArray slots) /\
    TimeSlot.mk (Booking.time booking) false
                (Some (Booking.clientEmail booking)) ∈ slots.
Proof.
  intros Hrun.
  destruct (record_accepted_or_not w) as [Hacc|[[code Hf]|[Hf [old Htaken]]]].
  2: by rewrite (createBooking_rejected booking w code Hf) in Hrun.
  2: by rewrite (createBooking_id_taken booking w old Hf Htaken) in Hrun.
  rewrite (createBooking_written booking w Hacc) in Hrun.
  destruct (bookTimeSlot _ _ _ (booking_written booking w))
    as [[[]|e] w2] eqn:Hslot; [|discriminate].
  injection Hrun as <- <-. split; [apply AutoId_chars_nonempty|].
  destruct (bookTimeSlot_booked _ _ _ _ _ Hslot)
    as (data & slots & Hdoc & Hslots & Hin & _).
  by exists data, slots.
Qed.

Lemma createBooking_success_witness :
  "ABCDEFGHIJKLMNOPQRST" ≠ "" /\
  exists data slots,
    docs "calendar"
      (createBooking (sample_booking pending) (quiet_world ∅)).2
      !! "2024-06-01" = Some data /\
    data !! "slots" = Some (VArray slots) /\
    TimeSlot.mk "10:00" false (Some "a@x.com") ∈ slots.
Proof.
  apply (createBooking_success (sample_booking pending) (quiet_world ∅)).
  reflexivity.
Defined.

(** C7: when the store has accepted the record and the booking of the slot
    then fails, [createBooking] raises an error to its caller, the record
    is in the bookings collection and nothing removes it, and the calendar
    is as it was before the call. *)
Theorem createBooking_orphan booking w e w' :
  record_accepted w ->
  bookTimeSlot (Booking.date booking) (Booking.time booking)
    (Booking.clientEmail booking) (booking_written booking w) = (Throw e, w') ->
  createBooking booking w = (Throw generic_failure, w') /\
  docs "bookings" w' =
    <[newBookingId w :=
        cleanBooking booking (clock w (ticks w)) (clock w (S (ticks w)))]>
      (docs "bookings" w) /\
  docs "calendar" w' = docs "calendar" w.
Proof.
  intros Hacc Hslot.
  pose proof (createBooking_record booking w Hacc) as Hrec.
  pose proof (createBooking_written booking w Hacc) as Hrun.
  rewrite Hslot in Hrun. rewrite Hrun in Hrec. simpl in Hrec.
  split; [exact Hrun|]. split; [exact Hrec|].
  apply bookTimeSlot_frame in Hslot as (_ & _ & _ & Hdb).
  transitivity (docs "calendar" (booking_written booking w)).
  { unfold docs. by rewrite (Hdb e eq_refl). }
  unfold booking_written. by rewrite docs_write_doc_ne.
Qed.

Lemma createBooking_orphan_witness :
  let w := faulty_world 1 "unavailable" sample_db in
  let w' := (createBooking (sample_booking pending) w).2 in
  createBooking (sample_booking pending) w = (Throw generic_failure, w') /\
  docs "bookings" w' =
    <[newBookingId w :=
        cleanBooking (sample_booking pending)
          (clock w (ticks w)) (clock w (S (ticks w)))]>
      (docs "bookings" w) /\
  docs "calendar" w' = docs "calendar" w.
Proof.
  apply (createBooking_orphan (sample_booking pending)
           (faulty_world 1 "unavailable" sample_db)
           (FirestoreError "unavailable"));
    [split; reflexivity | reflexivity].
Defined.

(** ** Error propagation *)

Lemma setDateAvailability_settles date isAvailable slots w :
  (rejections (setDateAvailability date isAvailable slots w).2 = rejections w /\
   (setDateAvailability date isAvailable slots w).1 = Ok tt) \/
  (exists e,
     rejections (setDateAvailability date isAvailable slots w).2
       = e :: rejections w /\
     (setDateAvailability date isAvailable slots w).1 = Throw e).
Proof.
  unfold setDateAvailability. run_store.
  destruct (fault w (calls w)); simpl; eauto.
Qed.

Lemma setDateAvailability_reraises date isAvailable slots :
  reraises (setDateAvailability date isAvailable slots).
Proof.
  intros w.
  destruct (setDateAvailability_settles date isAvailable slots w)
    as [[H _]|H]; auto.
Qed.

Lemma getDateAvailability_reraises date : reraises (getDateAvailability date).
Proof.
  intros w. unfold getDateAvailability. run_store.
  destruct (fault w (calls w)); simpl; eauto.
Qed.

Lemma getAvailabilityRange_reraises startDate endDate :
  reraises (getAvailabilityRange startDate endDate).
Proof.
  intros w. unfold getAvailabilityRange. run_store.
  destruct (fault w (calls w)); simpl; eauto.
Qed.

Lemma getAllBookings_reraises : reraises getAllBookings.
Proof.
  intros w. unfold getAllBookings. run_store.
  destruct (fault w (calls w)); simpl; eauto.
Qed.

Lemma updateBookingStatus_reraises bookingId status :
  reraises (updateBookingStatus bookingId status).
Proof.
  intros w. unfold updateBookingStatus. run_store.
  destruct (fault w (calls w)); simpl; eauto.
  destruct (docs "bookings" _ !! bookingId); simpl; eauto.
Qed.

Lemma bookTimeSlot_reraises date time clientEmail :
  reraises (bookTimeSlot date time clientEmail).
Proof.
  intros w.
  destruct (bookTimeSlot_cases date time clientEmail w); simpl; eauto.
Qed.

Lemma settle_all_setDateAvailability dates isAvailable w :
  let run :=
    settle_all
      (map (fun date => setDateAvailability date isAvailable None) dates) w in
  (rejections run.2 = rejections w /\ exists l, first_rejection run.1 = Ok l) \/
  (exists later e,
     rejections run.2 = (later ++ e :: rejections w)%list /\
     first_rejection run.1 = Throw e).
Proof.
  revert w. induction dates as [|date dates IH]; intros w; simpl.
  { left. eauto. }
  destruct (setDateAvailability date isAvailable None w) as [r w1] eqn:Hhead.
  pose proof (setDateAvailability_settles date isAvailable None w) as Hset.
  rewrite Hhead in Hset. simpl in Hset.
  specialize (IH w1). simpl in IH.
  destruct (settle_all _ w1) as [rs w2]. simpl in *.
  destruct Hset as [[Hsame ->]|(e & Hgrown & ->)].
  - destruct IH as [[Hrest [l Hl]]|(later & e & Hrest & He)].
    + left. rewrite Hl. split; [congruence | eauto].
    + right. exists later, e. rewrite He. split; congruence.
  - right. destruct IH as [[Hrest _]|(later & e' & Hrest & _)].
    + exists [], e. split; [simpl; congruence | reflexivity].
    + exists (later ++ [e'])%list, e. split; [|reflexivity].
      rewrite Hrest, Hgrown. by rewrite <- app_assoc.
Qed.

Lemma createBooking_replaces_errors booking :
  replaces_errors (createBooking booking) generic_failure.
Proof.
  intros w.
  destruct (record_accepted_or_not w) as [Hacc|[[code Hf]|[Hf [old Htaken]]]].
  - rewrite (createBooking_written booking w Hacc).
    destruct (bookTimeSlot _ _ _ (booking_written booking w))
      as [r w2] eqn:Hslot.
    apply bookTimeSlot_run in Hslot.
    destruct Hslot as [code ?|code ? ? ?| |? ? ? ? ?|? ? code ? ? ? ?|];
      simpl; auto; right; exists code; by repeat split.
  - rewrite (createBooking_rejected booking w code Hf). simpl.
    right. exists code. by repeat split.
  - rewrite (createBooking_id_taken booking w old Hf Htaken). simpl.
    right. exists "already-exists". by repeat split.
Qed.

(** ** Range queries *)

Lemma leb_iff a b :
  String.leb a b = true <-> a = b \/ OrderedTypeEx.String_as_OT.lt a b.
Proof.
  unfold String.leb.
  destruct (String.compare a b) eqn:Hcmp.
  - apply String.compare_eq_iff in Hcmp. tauto.
  - apply OrderedTypeEx.String_as_OT.cmp_lt in Hcmp. tauto.
  - split; [discriminate|]. intros [->|Hlt].
    + assert (String.compare b b = Eq) as Heq
        by (by apply OrderedTypeEx.String_as_OT.cmp_eq).
      congruence.
    + apply OrderedTypeEx.String_as_OT.cmp_lt in Hlt.
      unfold OrderedTypeEx.String_as_OT.cmp in Hlt. congruence.
Qed.

Lemma leb_trans a b c :
  String.leb a b = true -> String.leb b c = true -> String.leb a c = true.
Proof.
  rewrite !leb_iff. intros [->|Hab] [->|Hbc]; auto.
  right. by apply (OrderedTypeEx.String_as_OT.lt_trans a b c).
Qed.

#[local] Instance date_le_trans : Transitive date_le.
Proof. intros a b c. unfold date_le. apply leb_trans. Qed.

#[local] Instance precedes_total by_field :
  Total (fun x y => Is_true (precedes by_field x y)).
Proof.
  intros x y. unfold precedes.
  destruct by_field as [f|].
  - rewrite (String.compare_antisym (text_of f y.2)).
    destruct (String.compare (text_of f x.2) (text_of f y.2)); simpl; auto.
    destruct (String.leb_total x.1 y.1) as [->| ->]; simpl; auto.
  - destruct (String.leb_total x.1 y.1) as [->| ->]; simpl; auto.
Qed.

Lemma precedes_date_le x y :
  Is_true (precedes (Some "date") x y) -> date_le x.2 y.2.
Proof.
  unfold precedes, date_le, String.leb.
  by destruct (String.compare _ _).
Qed.

Lemma matches_range startDate endDate entry :
  matches (query "calendar"
             [where_ "date" op_ge startDate; where_ "date" op_le endDate])
          entry
  = within startDate endDate entry.2.
Proof.
  unfold matches, within, satisfies. simpl.
  destruct (entry.2 !! "date") as [[d| | |]|]; try reflexivity.
  by rewrite andb_true_r.
Qed.

(** C9: a served range query returns exactly the stored calendar documents
    whose date is within the bounds, both included, in the order of their
    dates; the store is left as it was. *)
Theorem getAvailabilityRange_exact startDate endDate w :
  fault w (calls w) = None ->
  exists l w',
    getAvailabilityRange startDate endDate w = (Ok l, w') /\
    db w' = db w /\
    l ≡ₚ (filter (fun entry => Is_true (within startDate endDate entry.2))
            (map_to_list (docs "calendar" w))).*2 /\
    (forall data,
       data ∈ l <->
       (exists key, docs "calendar" w !! key = Some data) /\
       within startDate endDate data = true) /\
    StronglySorted date_le l.
Proof.
  intros Hf.
  set (q := query "calendar"
              [where_ "date" op_ge startDate; where_ "date" op_le endDate]).
  exists ((run_query q (docs "calendar" w)).*2), (count_call w).
  assert (Hperm : (run_query q (docs "calendar" w)).*2 ≡ₚ
            (filter (fun entry => Is_true (within startDate endDate entry.2))
               (map_to_list (docs "calendar" w))).*2).
  { unfold run_query. rewrite merge_sort_Permutation.
    rewrite (list_filter_iff _
               (fun entry => Is_true (within startDate endDate entry.2)));
      [reflexivity|].
    intros entry. unfold q. by rewrite matches_range. }
  split; [|split; [reflexivity|split; [exact Hperm|split]]].
  - unfold getAvailabilityRange. fold q. run_store. by rewrite Hf.
  - intros data. rewrite Hperm, list_elem_of_fmap. split.
    + intros ([key d] & -> & Hin).
      apply list_elem_of_filter in Hin as [Hin Hstored].
      apply elem_of_map_to_list in Hstored. simpl in *.
      split; [by exists key | by apply Is_true_true].
    + intros [[key Hstored] Hin]. exists (key, data).
      split; [reflexivity|]. apply list_elem_of_filter.
      split; [by apply Is_true_true | by apply elem_of_map_to_list].
  - apply (Sorted_StronglySorted date_le).
    apply (Sorted_fmap snd (fun x y => Is_true (precedes (Some "date") x y))).
    + apply precedes_date_le.
    + unfold run_query. apply (Sorted_merge_sort _).
Qed.

Lemma getAvailabilityRange_exact_witness :
  exists l w',
    getAvailabilityRange "2024-06-01" "2024-06-30" (quiet_world sample_db)
      = (Ok l, w') /\
    db w' = db (quiet_world sample_db) /\
    l ≡ₚ (filter (fun entry => Is_true (within "2024-06-01" "2024-06-30" entry.2))
            (map_to_list (docs "calendar" (quiet_world sample_db)))).*2 /\
    (forall data,
       data ∈ l <->
       (exists key, docs "calendar" (quiet_world sample_db) !! key = Some data) /\
       within "2024-06-01" "2024-06-30" data = true) /\
    StronglySorted date_le l.
Proof.
  apply (getAvailabilityRange_exact "2024-06-01" "2024-06-30"
           (quiet_world sample_db)). reflexivity.
Defined.

(** ** Dates as keys *)

Lemma setDateAvailability_date_keyed date isAvailable slots w :
  date_keyed w -> date_keyed (setDateAvailability date isAvailable slots w).2.
Proof.
  intros Hkeyed key data. unfold setDateAvailability. run_store.
  destruct (fault w (calls w)); simpl; [apply Hkeyed|].
  rewrite docs_write_doc. autorewrite with world.
  destruct (decide (date = key)) as [<-|Hne].
  - rewrite lookup_insert_eq. intros [= <-].
    destruct (docs "calendar" w !! date);
      [apply lookup_union_Some_l|]; reflexivity.
  - rewrite lookup_insert_ne by done. apply Hkeyed.
Qed.

Lemma bookTimeSlot_date_keyed date time clientEmail w :
  date_keyed w -> date_keyed (bookTimeSlot date time clientEmail w).2.
Proof.
  intros Hkeyed key data'.
  destruct (bookTimeSlot_cases date time clientEmail w)
    as [| |Hread Habsent Hwrite| | |data slots Hread Hdoc Hslots Hwrite];
    try apply Hkeyed.
  - rewrite docs_write_doc. autorewrite with world.
    destruct (decide (date = key)) as [<-|Hne].
    + rewrite lookup_insert_eq. by intros [= <-].
    + rewrite lookup_insert_ne by done. apply Hkeyed.
  - rewrite docs_write_doc. autorewrite with world.
    destruct (decide (date = key)) as [<-|Hne].
    + rewrite lookup_insert_eq. intros [= <-].
      rewrite lookup_union_r by reflexivity. by apply Hkeyed.
    + rewrite lookup_insert_ne by done. apply Hkeyed.
Qed.

(** On such a store the range query selects by document id. *)
Lemma within_date_keyed startDate endDate w key data :
  date_keyed w ->
  docs "calendar" w !! key = Some data ->
  within startDate endDate data
    = String.leb startDate key && String.leb key endDate.
Proof.
  intros Hkeyed Hdoc. unfold within. by rewrite (Hkeyed key data Hdoc).
Qed.

(** * Further properties of the services *)

(** ** Single dates *)

Lemma setDateAvailability_run_served date isAvailable slots w :
  fault w (calls w) = None ->
  setDateAvailability date isAvailable slots w =
    (Ok tt,
     write_doc "calendar" date
       match docs "calendar" w !! date with
       | Some old =>
           {[ "date" := VString date;
              "isAvailable" := VBoolean isAvailable;
              "slots" := VArray (default [] slots);
              "updatedAt" := VTimestamp (clock w (ticks w)) ]} ∪ old
       | None =>
           {[ "date" := VString date;
              "isAvailable" := VBoolean isAvailable;
              "slots" := VArray (default [] slots);
              "updatedAt" := VTimestamp (clock w (ticks w)) ]}
       end
       (count_call (tick w))).
Proof.
  intros Hf. unfold setDateAvailability. run_store. rewrite Hf.
  autorewrite with world. by destruct (docs "calendar" w !! date).
Qed.

Lemma setDateAvailability_run_rejected date isAvailable slots w code :
  fault w (calls w) = Some code ->
  setDateAvailability date isAvailable slots w =
    (Throw (FirestoreError code),
     record_rejection (FirestoreError code) (count_call (tick w))).
Proof. intros Hf. unfold setDateAvailability. run_store. by rewrite Hf. Qed.

Lemma getDateAvailability_run_served date w :
  fault w (calls w) = None ->
  getDateAvailability date w = (Ok (docs "calendar" w !! date), count_call w).
Proof. intros Hf. unfold getDateAvailability. run_store. by rewrite Hf. Qed.

Lemma setDateAvailability_served_witness :
  exists w',
    setDateAvailability "2024-06-01" false (Some [sample_slot])
      (quiet_world sample_db) = (Ok tt, w') /\
    stored "calendar" "2024-06-01" "isAvailable" w' = Some (VBoolean false) /\
    stored "calendar" "2024-06-01" "slots" w'
      = Some (VArray (default [] (Some [sample_slot]))) /\
    stored "calendar" "2024-06-01" "updatedAt" w'
      = Some (VTimestamp 1717236000000).
Proof.
  apply (setDateAvailability_served "2024-06-01" false (Some [sample_slot])
           (quiet_world sample_db)). reflexivity.
Defined.

(** X2: a served [setDateAvailability] touches nothing but its four fields
    of the document of its date. *)
Theorem setDateAvailability_frame date isAvailable slots w :
  fault w (calls w) = None ->
  let w' := (setDateAvailability date isAvailable slots w).2 in
  (forall f, f ∉ availability_fields ->
     stored "calendar" date f w' = stored "calendar" date f w) /\
  (forall key, key ≠ date ->
     docs "calendar" w' !! key = docs "calendar" w !! key) /\
  (forall name, name ≠ "calendar" -> docs name w' = docs name w).
Proof.
  intros Hf w'. unfold w'.
  rewrite (setDateAvailability_run_served _ _ _ _ Hf). simpl.
  split; [|split].
  - intros f Hfresh. unfold stored, availability_fields in *.
    rewrite docs_write_doc, lookup_insert_eq. autorewrite with world. simpl.
    apply not_elem_of_cons in Hfresh as [H1 Hfresh].
    apply not_elem_of_cons in Hfresh as [H2 Hfresh].
    apply not_elem_of_cons in Hfresh as [H3 Hfresh].
    apply not_elem_of_cons in Hfresh as [H4 _].
    assert (Hpayload : forall (a b c d : Value),
      ({[ "date" := a; "isAvailable" := b; "slots" := c; "updatedAt" := d ]}
         : DocumentData) !! f = None).
    { intros. by rewrite !lookup_insert_ne, lookup_singleton_ne. }
    destruct (docs "calendar" w !! date) as [old|]; simpl.
    + rewrite lookup_union_r; [reflexivity | apply Hpayload].
    + apply Hpayload.
  - intros key Hne. rewrite docs_write_doc. autorewrite with world.
    by rewrite lookup_insert_ne.
  - intros name Hne. by rewrite docs_write_doc_ne.
Qed.

Lemma setDateAvailability_frame_witness :
  let w := quiet_world sample_db in
  let w' := (setDateAvailability "2024-06-01" false None w).2 in
  (forall f, f ∉ availability_fields ->
     stored "calendar" "2024-06-01" f w' = stored "calendar" "2024-06-01" f w) /\
  (forall key, key ≠ "2024-06-01" ->
     docs "calendar" w' !! key = docs "calendar" w !! key) /\
  (forall name, name ≠ "calendar" -> docs name w' = docs name w).
Proof.
  apply (setDateAvailability_frame "2024-06-01" false None
           (quiet_world sample_db)). reflexivity.
Defined.

(** X3: what was written is what is read: after a served
    [setDateAvailability], a served [getDateAvailability] of the date
    returns a document with the date, the flag and the slots given. *)
Theorem setDateAvailability_then_get date isAvailable slots w :
  fault w (calls w) = None ->
  fault w (S (calls w)) = None ->
  exists data w2,
    getDateAvailability date (setDateAvailability date isAvailable slots w).2
      = (Ok (Some data), w2) /\
    data !! "date" = Some (VString date) /\
    data !! "isAvailable" = Some (VBoolean isAvailable) /\
    data !! "slots" = Some (VArray (default [] slots)) /\
    data !! "updatedAt" = Some (VTimestamp (clock w (ticks w))).
Proof.
  intros Hwrite Hread.
  rewrite (setDateAvailability_run_served _ _ _ _ Hwrite). simpl.
  rewrite getDateAvailability_run_served by exact Hread.
  autorewrite with world. rewrite lookup_insert_eq.
  eexists _, _. split; [reflexivity|].
  destruct (docs "calendar" w !! date) as [old|];
    repeat split; try reflexivity.
  all: apply lookup_union_Some_l; reflexivity.
Qed.

Lemma setDateAvailability_then_get_witness :
  exists data w2,
    getDateAvailability "2024-07-01"
      (setDateAvailability "2024-07-01" true (Some [sample_slot])
         (quiet_world sample_db)).2
      = (Ok (Some data), w2) /\
    data !! "date" = Some (VString "2024-07-01") /\
    data !! "isAvailable" = Some (VBoolean true) /\
    data !! "slots" = Some (VArray (default [] (Some [sample_slot]))) /\
    data !! "updatedAt" = Some (VTimestamp 1717236000000).
Proof.
  apply (setDateAvailability_then_get "2024-07-01" true (Some [sample_slot])
           (quiet_world sample_db)); reflexivity.
Defined.

(** ** Failures and reads *)

Lemma updateBookingStatus_run_served bookingId status w old :
  fault w (calls w) = None ->
  docs "bookings" w !! bookingId = Some old ->
  updateBookingStatus bookingId status w =
    (Ok tt,
     write_doc "bookings" bookingId
       ({[ "status" := VString (Status_text status);
           "updatedAt" := VTimestamp (clock w (ticks w)) ]} ∪ old)
       (count_call (tick w))).
Proof.
  intros Hf Hold. unfold updateBookingStatus. run_store. rewrite Hf.
  autorewrite with world. by rewrite Hold.
Qed.

Lemma updateBookingStatus_run_missing bookingId status w :
  fault w (calls w) = None ->
  docs "bookings" w !! bookingId = None ->
  updateBookingStatus bookingId status w =
    (Throw (FirestoreError "not-found"),
     record_rejection (FirestoreError "not-found") (count_call (tick w))).
Proof.
  intros Hf Hold. unfold updateBookingStatus. run_store. rewrite Hf.
  autorewrite with world. by rewrite Hold.
Qed.

Lemma updateCalendar_run_served date updates w :
  fault w (calls w) = None ->
  updateCalendar date updates w =
    (Ok tt,
     write_doc "calendar" date
       match docs "calendar" w !! date with
       | Some old =>
           <["updatedAt" := VTimestamp (clock w (ticks w))]> updates ∪ old
       | None => <["updatedAt" := VTimestamp (clock w (ticks w))]> updates
       end
       (count_call (tick w))).
Proof.
  intros Hf. unfold updateCalendar. run_store. rewrite Hf.
  autorewrite with world. by destruct (docs "calendar" w !! date).
Qed.

(** X4: a write that fails has changed nothing: after a failed
    [setDateAvailability], [bookTimeSlot], [updateBookingStatus] or
    [updateCalendar] the database is the one before the call. *)
Theorem failed_write_changes_nothing :
  (forall date isAvailable slots,
     harmless_on_failure (setDateAvailability date isAvailable slots)) /\
  (forall date time clientEmail,
     harmless_on_failure (bookTimeSlot date time clientEmail)) /\
  (forall bookingId status,
     harmless_on_failure (updateBookingStatus bookingId status)) /\
  (forall date updates, harmless_on_failure (updateCalendar date updates)).
Proof.
  repeat split.
  - intros date isAvailable slots w e.
    unfold setDateAvailability. run_store.
    by destruct (fault w (calls w)).
  - intros date time clientEmail w e Hfail.
    destruct (bookTimeSlot date time clientEmail w) as [r w'] eqn:Hrun.
    apply bookTimeSlot_frame in Hrun as (_ & _ & _ & Hdb).
    by apply (Hdb e).
  - intros bookingId status w e.
    unfold updateBookingStatus. run_store.
    destruct (fault w (calls w)); [done|].
    by destruct (docs "bookings" _ !! bookingId).
  - intros date updates w e.
    unfold updateCalendar. run_store.
    by destruct (fault w (calls w)).
Qed.

(** X5: the reads never change the database, served or not. *)
Theorem reads_change_nothing :
  (forall date, read_only (getDateAvailability date)) /\
  (forall startDate endDate,
     read_only (getAvailabilityRange startDate endDate)) /\
  read_only getAllBookings /\
  (forall date, read_only (getCalendar date)).
Proof.
  repeat split.
  - intros date w. unfold getDateAvailability. run_store.
    by destruct (fault w (calls w)).
  - intros startDate endDate w. unfold getAvailabilityRange. run_store.
    by destruct (fault w (calls w)).
  - intros w. unfold getAllBookings. run_store.
    by destruct (fault w (calls w)).
  - intros date w. unfold getCalendar. run_store.
    destruct (fault w (calls w)); [done|].
    by destruct (docs "calendar" _ !! date).
Qed.

(** ** Batches *)

Lemma setDateAvailability_counters date isAvailable slots w :
  let w' := (setDateAvailability date isAvailable slots w).2 in
  calls w' = S (calls w) /\ fault w' = fault w.
Proof.
  unfold setDateAvailability. run_store.
  by destruct (fault w (calls w)).
Qed.

Lemma setDateAvailability_marks date isAvailable w :
  fault w (calls w) = None ->
  marked isAvailable date (setDateAvailability date isAvailable None w).2.
Proof.
  intros Hf. rewrite (setDateAvailability_run_served _ _ _ _ Hf). simpl.
  unfold marked, stored. rewrite docs_write_doc, lookup_insert_eq. simpl.
  autorewrite with world.
  destruct (docs "calendar" w !! date) as [old|]; simpl;
    split; try reflexivity; apply lookup_union_Some_l; reflexivity.
Qed.

Lemma setDateAvailability_keeps_marked date date' isAvailable w :
  marked isAvailable date w ->
  marked isAvailable date
    (setDateAvailability date' isAvailable None w).2.
Proof.
  intros Hmarked.
  destruct (fault w (calls w)) as [code|] eqn:Hf.
  { by rewrite (setDateAvailability_run_rejected _ _ _ _ code Hf). }
  destruct (decide (date' = date)) as [->|Hne].
  { by apply setDateAvailability_marks. }
  rewrite (setDateAvailability_run_served _ _ _ _ Hf). simpl.
  unfold marked, stored in *. rewrite docs_write_doc.
  autorewrite with world. by rewrite lookup_insert_ne.
Qed.

Lemma settle_all_keeps_marked dates date isAvailable w :
  marked isAvailable date w ->
  marked isAvailable date
    (settle_all
       (map (fun date => setDateAvailability date isAvailable None) dates) w).2.
Proof.
  revert w. induction dates as [|d dates IH]; intros w Hmarked; [done|].
  simpl.
  pose proof (setDateAvailability_keeps_marked date d isAvailable w Hmarked)
    as Hhead.
  destruct (setDateAvailability d isAvailable None w) as [r w1].
  specialize (IH w1 Hhead).
  by destruct (settle_all _ w1) as [rs w2].
Qed.

Lemma settle_all_batch dates isAvailable w :
  let run :=
    settle_all
      (map (fun date => setDateAvailability date isAvailable None) dates) w in
  calls run.2 = calls w + length dates /\
  (forall i date,
     dates !! i = Some date ->
     fault w (calls w + i) = None ->
     marked isAvailable date run.2) /\
  ((exists l, first_rejection run.1 = Ok l) <->
   forall i, i < length dates -> fault w (calls w + i) = None).
Proof.
  revert w. induction dates as [|d dates IH]; intros w; simpl.
  { split; [lia|]. split; [intros i date [=]|].
    split; [intros _ i Hi; lia | eauto]. }
  pose proof (setDateAvailability_counters d isAvailable None w)
    as [Hcalls Hfault].
  pose proof (setDateAvailability_settles d isAvailable None w) as Hhead.
  pose proof (fun H => setDateAvailability_marks d isAvailable w H) as Hmark.
  assert (Hcause : forall e,
    (setDateAvailability d isAvailable None w).1 = Throw e ->
    fault w (calls w) ≠ None).
  { intros e He Hf.
    rewrite (setDateAvailability_run_served _ _ _ _ Hf) in He. discriminate. }
  assert (Hfine :
    (setDateAvailability d isAvailable None w).1 = Ok tt ->
    fault w (calls w) = None).
  { intros Hok. destruct (fault w (calls w)) as [code|] eqn:Hf; [|done].
    rewrite (setDateAvailability_run_rejected _ _ _ _ code Hf) in Hok.
    discriminate. }
  destruct (setDateAvailability d isAvailable None w) as [r w1].
  simpl in *. specialize (IH w1). simpl in IH.
  pose proof (fun date H => settle_all_keeps_marked dates date isAvailable w1 H)
    as Hkeep.
  destruct (settle_all _ w1) as [rs w2]. simpl in *.
  destruct IH as (IHcalls & IHmarked & IHok).
  rewrite Hcalls, Hfault in *.
  split; [lia|]. split.
  - intros [|i] date Hlook Hserved; simpl in Hlook.
    + injection Hlook as <-. rewrite Nat.add_0_r in Hserved.
      by apply Hkeep, Hmark.
    + apply (IHmarked i date Hlook).
      by replace (S (calls w) + i) with (calls w + S i) by lia.
  - split.
    + intros [l Hl] [|i] Hi.
      * rewrite Nat.add_0_r. apply Hfine.
        destruct r as [[]|e]; [done | discriminate].
      * replace (calls w + S i) with (S (calls w) + i) by lia.
        apply IHok; [|lia].
        destruct r as [[]|e]; [|discriminate].
        destruct (first_rejection rs); [eauto | discriminate].
    + intros Hall.
      assert (Hrest : exists l, first_rejection rs = Ok l).
      { apply IHok. intros i Hi.
        replace (S (calls w) + i) with (calls w + S i) by lia.
        apply Hall. lia. }
      destruct Hrest as [l Hl].
      destruct r as [[]|e].
      * rewrite Hl. eauto.
      * exfalso. apply (Hcause e eq_refl).
        rewrite <- (Nat.add_0_r (calls w)). apply Hall. lia.
Qed.

Lemma setBatchAvailability_run dates isAvailable w :
  let run :=
    settle_all
      (map (fun date => setDateAvailability date isAvailable None) dates) w in
  setBatchAvailability dates isAvailable w =
    (match first_rejection run.1 with
     | Ok _ => Ok tt
     | Throw e => Throw e
     end, run.2).
Proof.
  unfold setBatchAvailability, Promise_all. run_store.
  destruct (settle_all _ w) as [rs w1]. simpl.
  by destruct (first_rejection rs).
Qed.

(** X6: a batch is not atomic and does not stop at a failure: it makes
    one store call per date, and every date whose own write the store
    serves ends up marked with the flag, and with an empty slots list,
    whatever happens to the other dates. *)
Theorem setBatchAvailability_partial dates isAvailable w i date :
  dates !! i = Some date ->
  fault w (calls w + i) = None ->
  let w' := (setBatchAvailability dates isAvailable w).2 in
  calls w' = calls w + length dates /\
  stored "calendar" date "isAvailable" w' = Some (VBoolean isAvailable) /\
  stored "calendar" date "slots" w' = Some (VArray []).
Proof.
  intros Hlook Hserved w'. unfold w'.
  rewrite setBatchAvailability_run. simpl.
  destruct (settle_all_batch dates isAvailable w) as (Hcalls & Hmarked & _).
  split; [exact Hcalls|]. exact (Hmarked i date Hlook Hserved).
Qed.

Lemma setBatchAvailability_partial_witness :
  let w := faulty_world 0 "unavailable" sample_db in
  let w' :=
    (setBatchAvailability ["2024-06-01"; "2024-06-02"] false w).2 in
  calls w' = calls w + 2 /\
  stored "calendar" "2024-06-02" "isAvailable" w' = Some (VBoolean false) /\
  stored "calendar" "2024-06-02" "slots" w' = Some (VArray []).
Proof.
  apply (setBatchAvailability_partial ["2024-06-01"; "2024-06-02"] false
           (faulty_world 0 "unavailable" sample_db) 1 "2024-06-02");
    reflexivity.
Defined.

(** X7: a batch succeeds exactly when the store serves every one of its
    writes; the empty batch succeeds without a store call. *)
Theorem setBatchAvailability_succeeds_iff dates isAvailable w :
  (setBatchAvailability dates isAvailable w).1 = Ok tt <->
  forall i, i < length dates -> fault w (calls w + i) = None.
Proof.
  rewrite setBatchAvailability_run. simpl.
  destruct (settle_all_batch dates isAvailable w) as (_ & _ & Hok).
  rewrite <- Hok.
  destruct (first_rejection _); split; eauto; [discriminate|].
  intros [l [=]].
Qed.

(** ** More on range queries *)

Lemma getAvailabilityRange_run_served startDate endDate w :
  fault w (calls w) = None ->
  getAvailabilityRange startDate endDate w =
    (Ok (run_query
           (query "calendar"
              [where_ "date" op_ge startDate; where_ "date" op_le endDate])
           (docs "calendar" w)).*2,
     count_call w).
Proof. intros Hf. unfold getAvailabilityRange. run_store. by rewrite Hf. Qed.

Lemma range_elem startDate endDate (c : CollectionData) data :
  data ∈ (run_query
            (query "calendar"
               [where_ "date" op_ge startDate; where_ "date" op_le endDate])
            c).*2 <->
  exists key, c !! key = Some data /\ within startDate endDate data = true.
Proof.
  unfold run_query. rewrite merge_sort_Permutation, list_elem_of_fmap. split.
  - intros ([key d] & -> & Hin).
    apply list_elem_of_filter in Hin as [Hin Hstored].
    rewrite matches_range in Hin.
    apply elem_of_map_to_list in Hstored. simpl in *.
    exists key. split; [done | by apply Is_true_true].
  - intros (key & Hstored & Hin). exists (key, data).
    split; [reflexivity|]. apply list_elem_of_filter.
    rewrite matches_range.
    split; [by apply Is_true_true | by apply elem_of_map_to_list].
Qed.

Lemma within_bounds startDate endDate data :
  within startDate endDate data = true ->
  String.leb startDate endDate = true.
Proof.
  unfold within. destruct (data !! "date") as [[d| | |]|]; try discriminate.
  intros [H1 H2]%andb_true_iff. by apply (leb_trans _ d).
Qed.

(** X8: with the end before the start, a served range query returns the
    empty list, whatever is stored. *)
Theorem getAvailabilityRange_empty_range startDate endDate w :
  String.leb startDate endDate = false ->
  fault w (calls w) = None ->
  getAvailabilityRange startDate endDate w = (Ok [], count_call w).
Proof.
  intros Hbounds Hf. rewrite getAvailabilityRange_run_served by exact Hf.
  do 2 f_equal. apply elem_of_nil_inv. intros data Hin.
  apply range_elem in Hin as (key & _ & Hin).
  apply within_bounds in Hin. congruence.
Qed.

Lemma getAvailabilityRange_empty_range_witness :
  getAvailabilityRange "2024-12-31" "2024-01-01" (quiet_world sample_db)
    = (Ok [], count_call (quiet_world sample_db)).
Proof.
  apply (getAvailabilityRange_empty_range "2024-12-31" "2024-01-01"
           (quiet_world sample_db)); reflexivity.
Defined.

(** X9: on a store where every calendar document carries its id as its
    date, a served range query returns the documents whose id is within
    the bounds. *)
Theorem getAvailabilityRange_by_key startDate endDate w :
  date_keyed w ->
  fault w (calls w) = None ->
  exists l w',
    getAvailabilityRange startDate endDate w = (Ok l, w') /\
    forall data,
      data ∈ l <->
      exists key,
        docs "calendar" w !! key = Some data /\
        String.leb startDate key = true /\
        String.leb key endDate = true.
Proof.
  intros Hkeyed Hf. eexists _, _.
  split; [by apply getAvailabilityRange_run_served|].
  intros data. rewrite range_elem. split.
  - intros (key & Hdoc & Hin). exists key. split; [done|].
    rewrite (within_date_keyed _ _ w key data Hkeyed Hdoc) in Hin.
    by apply andb_true_iff.
  - intros (key & Hdoc & H1 & H2). exists key. split; [done|].
    rewrite (within_date_keyed _ _ w key data Hkeyed Hdoc).
    by rewrite H1, H2.
Qed.

Lemma sample_date_keyed : date_keyed (quiet_world sample_db).
Proof.
  intros key data. unfold docs, quiet_world, sample_db. simpl.
  rewrite lookup_singleton_eq. simpl.
  intros [<- <-]%lookup_singleton_Some. reflexivity.
Qed.

Lemma getAvailabilityRange_by_key_witness :
  exists l w',
    getAvailabilityRange "2024-06-01" "2024-06-30" (quiet_world sample_db)
      = (Ok l, w') /\
    forall data,
      data ∈ l <->
      exists key,
        docs "calendar" (quiet_world sample_db) !! key = Some data /\
        String.leb "2024-06-01" key = true /\
        String.leb key "2024-06-30" = true.
Proof.
  apply (getAvailabilityRange_by_key "2024-06-01" "2024-06-30"
           (quiet_world sample_db)); [apply sample_date_keyed | reflexivity].
Defined.

(** ** Dates stay keys *)

Lemma date_keyed_same_calendar w w' :
  docs "calendar" w' = docs "calendar" w -> date_keyed w -> date_keyed w'.
Proof. intros Hsame Hkeyed key data. rewrite Hsame. apply Hkeyed. Qed.

Lemma settle_all_date_keyed dates isAvailable w :
  date_keyed w ->
  date_keyed
    (settle_all
       (map (fun date => setDateAvailability date isAvailable None) dates) w).2.
Proof.
  revert w. induction dates as [|d dates IH]; intros w Hkeyed; [done|].
  simpl.
  pose proof (setDateAvailability_date_keyed d isAvailable None w Hkeyed)
    as Hhead.
  destruct (setDateAvailability d isAvailable None w) as [r w1].
  specialize (IH w1 Hhead).
  by destruct (settle_all _ w1) as [rs w2].
Qed.

(** X10: the writes of the service keep every calendar document's date
    equal to its id: [setDateAvailability], [setBatchAvailability],
    [bookTimeSlot], [createBooking] and [updateBookingStatus]. *)
Theorem service_keeps_dates_as_keys :
  (forall date isAvailable slots,
     keeps date_keyed (setDateAvailability date isAvailable slots)) /\
  (forall dates isAvailable,
     keeps date_keyed (setBatchAvailability dates isAvailable)) /\
  (forall date time clientEmail,
     keeps date_keyed (bookTimeSlot date time clientEmail)) /\
  (forall booking, keeps date_keyed (createBooking booking)) /\
  (forall bookingId status,
     keeps date_keyed (updateBookingStatus bookingId status)).
Proof.
  repeat split.
  - intros date isAvailable slots w.
    apply setDateAvailability_date_keyed.
  - intros dates isAvailable w Hkeyed.
    rewrite setBatchAvailability_run. simpl.
    by apply settle_all_date_keyed.
  - intros date time clientEmail w. apply bookTimeSlot_date_keyed.
  - intros booking w Hkeyed.
    destruct (record_accepted_or_not w) as [Hacc|[[code Hf]|[Hf [old Htaken]]]].
    + rewrite (createBooking_written booking w Hacc).
      assert (Hwritten : date_keyed (booking_written booking w)).
      { apply (date_keyed_same_calendar w); [|done].
        unfold booking_written. by rewrite docs_write_doc_ne. }
      pose proof (bookTimeSlot_date_keyed (Booking.date booking)
                    (Booking.time booking) (Booking.clientEmail booking)
                    _ Hwritten) as Hslot.
      by destruct (bookTimeSlot _ _ _ (booking_written booking w))
        as [[[]|e] w'].
    + by rewrite (createBooking_rejected booking w code Hf).
    + by rewrite (createBooking_id_taken booking w old Hf Htaken).
  - intros bookingId status w Hkeyed.
    unfold updateBookingStatus. run_store.
    destruct (fault w (calls w)); [done|].
    autorewrite with world.
    destruct (docs "bookings" w !! bookingId); [|done].
    apply (date_keyed_same_calendar w); [|done].
    simpl. by rewrite docs_write_doc_ne.
Qed.

(** ** More on time slot booking *)

Lemma updatedSlots_fixed time clientEmail slots :
  booked time clientEmail ∈ slots ->
  (forall s, s ∈ slots -> TimeSlot.time s = time ->
             s = booked time clientEmail) ->
  updatedSlots time clientEmail slots = slots.
Proof.
  intros Hin Hbound. unfold updatedSlots.
  destruct (find _ slots) as [s0|] eqn:Hfind.
  - clear s0 Hfind. rewrite <- (map_id slots) at 2.
    apply map_ext_in. intros s Hs%list_elem_of_In.
    destruct (decide (TimeSlot.time s = time)) as [Heq|Hne].
    + rewrite (rebind_at _ _ s Heq). symmetry. by apply Hbound.
    + by apply rebind_elsewhere.
  - apply find_time_None in Hfind.
    rewrite Forall_forall in Hfind. by destruct (Hfind _ Hin).
Qed.

Lemma updatedSlots_fresh time clientEmail slots :
  Forall (fun s => TimeSlot.time s ≠ time) slots ->
  updatedSlots time clientEmail slots
    = (slots ++ [booked time clientEmail])%list.
Proof.
  intros Hfresh. unfold updatedSlots.
  rewrite (proj2 (find_time_None time slots) Hfresh). f_equal.
  rewrite <- (map_id slots) at 2. apply map_ext_in.
  intros s Hs%list_elem_of_In. apply rebind_elsewhere.
  rewrite Forall_forall in Hfresh. by apply Hfresh.
Qed.

Lemma updatedSlots_in_place time clientEmail slots :
  Exists (fun s => TimeSlot.time s = time) slots ->
  map TimeSlot.time (updatedSlots time clientEmail slots)
    = map TimeSlot.time slots.
Proof.
  intros Hex. unfold updatedSlots.
  destruct (find _ slots) as [s0|] eqn:Hfind.
  - rewrite map_map. apply map_ext. intros s. apply rebind_time.
  - apply find_time_None in Hfind. apply Exists_exists in Hex as (s & Hs & Ht).
    rewrite Forall_forall in Hfind. by destruct (Hfind s Hs).
Qed.

Lemma bookTimeSlot_updates_any date time clientEmail w data slots :
  docs "calendar" w !! date = Some data ->
  slots_of data (count_call w) = (Ok slots, count_call w) ->
  fault w (calls w) = None ->
  fault w (S (calls w)) = None ->
  bookTimeSlot date time clientEmail w =
    (Ok tt,
     write_doc "calendar" date
       ({[ "slots" := VArray (updatedSlots time clientEmail slots);
           "updatedAt" := VTimestamp (clock w (ticks w)) ]} ∪ data)
       (count_call (tick (count_call w)))).
Proof.
  intros Hdoc Hslots Hread Hwrite.
  destruct (bookTimeSlot date time clientEmail w) as [r w'] eqn:Hrun.
  apply bookTimeSlot_run in Hrun.
  inversion Hrun; subst; congruence.
Qed.

Lemma stored_after_update date (patch data : DocumentData) w0 f :
  stored "calendar" date f (write_doc "calendar" date (patch ∪ data) w0)
    = (patch ∪ data) !! f.
Proof. unfold stored. by rewrite docs_write_doc, lookup_insert_eq. Qed.

(** X11: booking the same slot for the same client a second time changes
    nothing but the time stamp of the document. *)
Theorem bookTimeSlot_idempotent date time clientEmail w w1 :
  bookTimeSlot date time clientEmail w = (Ok tt, w1) ->
  fault w1 (calls w1) = None ->
  fault w1 (S (calls w1)) = None ->
  exists w2,
    bookTimeSlot date time clientEmail w1 = (Ok tt, w2) /\
    (forall f, f ≠ "updatedAt" ->
       stored "calendar" date f w2 = stored "calendar" date f w1) /\
    (forall key, key ≠ date ->
       docs "calendar" w2 !! key = docs "calendar" w1 !! key).
Proof.
  intros Hfirst Hread Hwrite.
  destruct (bookTimeSlot_booked _ _ _ _ _ Hfirst)
    as (data1 & slots1 & Hdoc1 & Hslots1 & Hin & Hbound).
  pose proof (bookTimeSlot_updates date time clientEmail w1 data1 slots1
                Hdoc1 Hslots1 Hread Hwrite) as Hsecond.
  eexists. split; [exact Hsecond|]. split.
  - intros f Hf. rewrite stored_after_update.
    unfold stored. rewrite Hdoc1. simpl.
    rewrite (updatedSlots_fixed _ _ _ Hin Hbound).
    destruct (decide (f = "slots")) as [->|Hne].
    + rewrite Hslots1. apply lookup_union_Some_l. reflexivity.
    + apply lookup_union_r.
      by rewrite lookup_insert_ne, lookup_singleton_ne.
  - intros key Hne. rewrite docs_write_doc. autorewrite with world.
    by rewrite lookup_insert_ne.
Qed.

Lemma bookTimeSlot_idempotent_witness :
  exists w2,
    bookTimeSlot "2024-06-01" "11:00" "b@x.com"
      (bookTimeSlot "2024-06-01" "11:00" "b@x.com" (quiet_world sample_db)).2
      = (Ok tt, w2) /\
    (forall f, f ≠ "updatedAt" ->
       stored "calendar" "2024-06-01" f w2 =
       stored "calendar" "2024-06-01" f
         (bookTimeSlot "2024-06-01" "11:00" "b@x.com"
            (quiet_world sample_db)).2) /\
    (forall key, key ≠ "2024-06-01" ->
       docs "calendar" w2 !! key =
       docs "calendar"
         (bookTimeSlot "2024-06-01" "11:00" "b@x.com"
            (quiet_world sample_db)).2 !! key).
Proof.
  apply (bookTimeSlot_idempotent "2024-06-01" "11:00" "b@x.com"
           (quiet_world sample_db)); reflexivity.
Defined.

(** X12: when no stored slot has the time, the stored list afterwards is
    the old list followed by the booked slot. *)
Theorem bookTimeSlot_appends date time clientEmail w data slots :
  docs "calendar" w !! date = Some data ->
  data !! "slots" = Some (VArray slots) ->
  Forall (fun s => TimeSlot.time s ≠ time) slots ->
  fault w (calls w) = None ->
  fault w (S (calls w)) = None ->
  exists w',
    bookTimeSlot date time clientEmail w = (Ok tt, w') /\
    stored "calendar" date "slots" w'
      = Some (VArray (slots ++ [TimeSlot.mk time false (Some clientEmail)])).
Proof.
  intros Hdoc Hslots Hfresh Hread Hwrite. eexists.
  split; [by eapply bookTimeSlot_updates|].
  rewrite stored_after_update.
  rewrite (updatedSlots_fresh _ _ _ Hfresh).
  apply lookup_union_Some_l. reflexivity.
Qed.

Lemma bookTimeSlot_appends_witness :
  exists w',
    bookTimeSlot "2024-06-01" "11:00" "b@x.com" (quiet_world sample_db)
      = (Ok tt, w') /\
    stored "calendar" "2024-06-01" "slots" w'
      = Some (VArray ([sample_slot]
                        ++ [TimeSlot.mk "11:00" false (Some "b@x.com")])).
Proof.
  apply (bookTimeSlot_appends "2024-06-01" "11:00" "b@x.com"
           (quiet_world sample_db) sample_day [sample_slot]);
    try reflexivity.
  constructor; [discriminate | constructor].
Defined.

(** X13: when a stored slot has the time, the slots are rebound where
    they stand: the list keeps its length and the times their places. *)
Theorem bookTimeSlot_in_place date time clientEmail w data slots :
  docs "calendar" w !! date = Some data ->
  data !! "slots" = Some (VArray slots) ->
  Exists (fun s => TimeSlot.time s = time) slots ->
  fault w (calls w) = None ->
  fault w (S (calls w)) = None ->
  exists w' slots',
    bookTimeSlot date time clientEmail w = (Ok tt, w') /\
    stored "calendar" date "slots" w' = Some (VArray slots') /\
    length slots' = length slots /\
    map TimeSlot.time slots' = map TimeSlot.time slots.
Proof.
  intros Hdoc Hslots Hex Hread Hwrite.
  eexists _, (updatedSlots time clientEmail slots).
  split; [by eapply bookTimeSlot_updates|].
  split; [rewrite stored_after_update;
          apply lookup_union_Some_l; reflexivity|].
  pose proof (updatedSlots_in_place time clientEmail slots Hex) as Htimes.
  split; [|exact Htimes].
  rewrite <- (length_map TimeSlot.time), Htimes. apply length_map.
Qed.

Lemma bookTimeSlot_in_place_witness :
  exists w' slots',
    bookTimeSlot "2024-06-01" "10:00" "b@x.com" (quiet_world sample_db)
      = (Ok tt, w') /\
    stored "calendar" "2024-06-01" "slots" w' = Some (VArray slots') /\
    length slots' = length [sample_slot] /\
    map TimeSlot.time slots' = map TimeSlot.time [sample_slot].
Proof.
  apply (bookTimeSlot_in_place "2024-06-01" "10:00" "b@x.com"
           (quiet_world sample_db) sample_day [sample_slot]);
    try reflexivity.
  by constructor.
Defined.

(** X14: a booking checks no availability: on a day that is marked
    unavailable the served call succeeds, binds the slot and leaves the
    day's flag and every field but the slots and the time stamp as they
    were. *)
Theorem bookTimeSlot_ignores_day_flag date time clientEmail w data slots :
  docs "calendar" w !! date = Some data ->
  data !! "isAvailable" = Some (VBoolean false) ->
  data !! "slots" = Some (VArray slots) ->
  fault w (calls w) = None ->
  fault w (S (calls w)) = None ->
  exists w' slots',
    bookTimeSlot date time clientEmail w = (Ok tt, w') /\
    stored "calendar" date "slots" w' = Some (VArray slots') /\
    TimeSlot.mk time false (Some clientEmail) ∈ slots' /\
    (forall f, f ≠ "slots" -> f ≠ "updatedAt" ->
       stored "calendar" date f w' = data !! f) /\
    stored "calendar" date "isAvailable" w' = Some (VBoolean false).
Proof.
  intros Hdoc Hflag Hslots Hread Hwrite.
  assert (Hkept : forall f (a b : Value), f ≠ "slots" -> f ≠ "updatedAt" ->
    (({[ "slots" := a; "updatedAt" := b ]} : DocumentData) ∪ data) !! f
      = data !! f).
  { intros f a b H1 H2. apply lookup_union_r.
    by rewrite lookup_insert_ne, lookup_singleton_ne. }
  eexists _, (updatedSlots time clientEmail slots).
  split; [by eapply bookTimeSlot_updates|].
  split; [rewrite stored_after_update;
          apply lookup_union_Some_l; reflexivity|].
  split; [apply updatedSlots_booked|].
  split.
  - intros f H1 H2. rewrite stored_after_update. by apply Hkept.
  - rewrite stored_after_update. by rewrite Hkept.
Qed.

Lemma bookTimeSlot_ignores_day_flag_witness :
  exists w' slots',
    bookTimeSlot "2024-06-01" "10:00" "b@x.com" (quiet_world closed_db)
      = (Ok tt, w') /\
    stored "calendar" "2024-06-01" "slots" w' = Some (VArray slots') /\
    TimeSlot.mk "10:00" false (Some "b@x.com") ∈ slots' /\
    (forall f, f ≠ "slots" -> f ≠ "updatedAt" ->
       stored "calendar" "2024-06-01" f w' = closed_day !! f) /\
    stored "calendar" "2024-06-01" "isAvailable" w' = Some (VBoolean false).
Proof.
  apply (bookTimeSlot_ignores_day_flag "2024-06-01" "10:00" "b@x.com"
           (quiet_world closed_db) closed_day [sample_slot]);
    reflexivity.
Defined.

(** X15: a document stored without a slots field counts as having no
    slots: the served call gives it the one booked slot. *)
Theorem bookTimeSlot_without_slots_field date time clientEmail w data :
  docs "calendar" w !! date = Some data ->
  data !! "slots" = None ->
  fault w (calls w) = None ->
  fault w (S (calls w)) = None ->
  exists w',
    bookTimeSlot date time clientEmail w = (Ok tt, w') /\
    stored "calendar" date "slots" w'
      = Some (VArray [TimeSlot.mk time false (Some clientEmail)]).
Proof.
  intros Hdoc Hnone Hread Hwrite. eexists. split.
  - apply (bookTimeSlot_updates_any _ _ _ _ data []); try done.
    unfold slots_of. by rewrite Hnone.
  - rewrite stored_after_update.
    apply lookup_union_Some_l. reflexivity.
Qed.

Lemma bookTimeSlot_without_slots_field_witness :
  exists w',
    bookTimeSlot "2024-06-01" "10:00" "a@x.com" (quiet_world bare_db)
      = (Ok tt, w') /\
    stored "calendar" "2024-06-01" "slots" w'
      = Some (VArray [TimeSlot.mk "10:00" false (Some "a@x.com")]).
Proof.
  eapply (bookTimeSlot_without_slots_field "2024-06-01" "10:00" "a@x.com"
            (quiet_world bare_db)); reflexivity.
Defined.

(** X16: a stored slots field that is neither an array nor false as a
    condition makes the call fail with a type error raised after the read,
    before any write: one store call is made and the database is as it
    was. *)
Theorem bookTimeSlot_slots_not_array date time clientEmail w data v :
  docs "calendar" w !! date = Some data ->
  data !! "slots" = Some v ->
  truthy_non_array v = true ->
  fault w (calls w) = None ->
  exists message w',
    bookTimeSlot date time clientEmail w = (Throw (TypeError message), w') /\
    db w' = db w /\
    calls w' = S (calls w) /\
    rejections w' = rejections w.
Proof.
  intros Hdoc Hv Htruthy Hread.
  destruct (bookTimeSlot date time clientEmail w) as [r w'] eqn:Hrun.
  apply bookTimeSlot_run in Hrun.
  assert (Hs : slots_of data (count_call w)
               = (Throw (TypeError "slots.map is not a function"),
                  count_call w)).
  { unfold slots_of. rewrite Hv.
    by destruct v as [[|? ?]|[|]| |]. }
  inversion Hrun; subst; try congruence.
  assert (e = TypeError "slots.map is not a function") as -> by congruence.
  by eexists _, _.
Qed.

Lemma bookTimeSlot_slots_not_array_witness :
  exists message w',
    bookTimeSlot "2024-06-01" "10:00" "a@x.com" (quiet_world broken_db)
      = (Throw (TypeError message), w') /\
    db w' = db (quiet_world broken_db) /\
    calls w' = S (calls (quiet_world broken_db)) /\
    rejections w' = rejections (quiet_world broken_db).
Proof.
  eapply (bookTimeSlot_slots_not_array "2024-06-01" "10:00" "a@x.com"
            (quiet_world broken_db) _ (VString "none")); reflexivity.
Defined.

(** ** More on bookings *)

Lemma run_split {A} (run : Result A * World) r :
  run.1 = r -> run = (r, run.2).
Proof. destruct run as [r0 w0]. simpl. by intros ->. Qed.

(** X17: when the store does not accept the record (it rejects the write,
    or the id drawn is taken), [createBooking] fails with its generic error
    and nothing is written, neither a record nor a slot. *)
Theorem createBooking_nothing_written booking w :
  ~ record_accepted w ->
  (createBooking booking w).1 = Throw generic_failure /\
  db (createBooking booking w).2 = db w.
Proof.
  intros Hnot.
  destruct (record_accepted_or_not w) as [Hacc|[[code Hf]|[Hf [old Htaken]]]].
  - contradiction.
  - by rewrite (createBooking_rejected booking w code Hf).
  - by rewrite (createBooking_id_taken booking w old Hf Htaken).
Qed.

Lemma createBooking_nothing_written_witness :
  let w := faulty_world 0 "permission-denied" sample_db in
  (createBooking (sample_booking pending) w).1 = Throw generic_failure /\
  db (createBooking (sample_booking pending) w).2 = db w.
Proof.
  apply (createBooking_nothing_written (sample_booking pending)
           (faulty_world 0 "permission-denied" sample_db)).
  intros [Hf _]. discriminate Hf.
Defined.

(** X18: a call that succeeds returns the id it drew, has added exactly
    the one record under that id, which was free, and has changed no
    calendar document but the one of the booking's date. *)
Theorem createBooking_adds_one_record booking w id w' :
  createBooking booking w = (Ok id, w') ->
  id = newBookingId w /\
  docs "bookings" w !! id = None /\
  docs "bookings" w' =
    <[id := cleanBooking booking (clock w (ticks w)) (clock w (S (ticks w)))]>
      (docs "bookings" w) /\
  size (docs "bookings" w') = S (size (docs "bookings" w)) /\
  forall key, key ≠ Booking.date booking ->
    docs "calendar" w' !! key = docs "calendar" w !! key.
Proof.
  intros Hrun.
  destruct (record_accepted_or_not w) as [Hacc|[[code Hf]|[Hf [old Htaken]]]].
  2: by rewrite (createBooking_rejected booking w code Hf) in Hrun.
  2: by rewrite (createBooking_id_taken booking w old Hf Htaken) in Hrun.
  pose proof (createBooking_record booking w Hacc) as Hrec.
  rewrite Hrun in Hrec. simpl in Hrec.
  rewrite (createBooking_written booking w Hacc) in Hrun.
  destruct (bookTimeSlot _ _ _ (booking_written booking w))
    as [[[]|e] w2] eqn:Hslot; [|discriminate].
  injection Hrun as <- <-. destruct Hacc as [_ Hfree].
  split; [reflexivity|]. split; [exact Hfree|]. split; [exact Hrec|].
  split; [rewrite Hrec; by apply map_size_insert_None|].
  intros key Hne.
  apply bookTimeSlot_frame in Hslot as (_ & _ & Hkeys & _).
  rewrite (Hkeys key Hne). unfold booking_written.
  by rewrite docs_write_doc_ne.
Qed.

Lemma createBooking_adds_one_record_witness :
  let w := quiet_world sample_db in
  let w' := (createBooking (sample_booking pending) w).2 in
  "ABCDEFGHIJKLMNOPQRST" = newBookingId w /\
  docs "bookings" w !! "ABCDEFGHIJKLMNOPQRST" = None /\
  docs "bookings" w' =
    <["ABCDEFGHIJKLMNOPQRST" :=
        cleanBooking (sample_booking pending)
          (clock w (ticks w)) (clock w (S (ticks w)))]>
      (docs "bookings" w) /\
  size (docs "bookings" w') = S (size (docs "bookings" w)) /\
  forall key, key ≠ Booking.date (sample_booking pending) ->
    docs "calendar" w' !! key = docs "calendar" w !! key.
Proof.
  intros w w'.
  apply (createBooking_adds_one_record (sample_booking pending) w).
  exact (run_split (createBooking (sample_booking pending) w)
           (Ok "ABCDEFGHIJKLMNOPQRST") eq_refl).
Defined.

Lemma filter_all {A} (P : A -> Prop) `{!forall x, Decision (P x)} (l : list A) :
  (forall x, P x) -> filter P l = l.
Proof.
  intros HP. induction l as [|x l IH]; [reflexivity|].
  rewrite filter_cons_True by apply HP. by rewrite IH.
Qed.

Lemma getAllBookings_run_served w :
  fault w (calls w) = None ->
  getAllBookings w =
    (Ok ((fun d : string * DocumentData => d.2 ∪ {[ "id" := VString d.1 ]})
           <$> run_query (collection "bookings") (docs "bookings" w)),
     count_call w).
Proof. intros Hf. unfold getAllBookings. run_store. by rewrite Hf. Qed.

Lemma run_query_collection name (c : CollectionData) :
  run_query (collection name) c ≡ₚ map_to_list c.
Proof.
  unfold run_query. rewrite merge_sort_Permutation.
  by rewrite filter_all.
Qed.

(** X19: a served listing returns one entry for every stored booking and
    no other: the stored fields, with the document id under [id] unless
    the stored fields have an [id] of their own. *)
Theorem getAllBookings_complete w :
  fault w (calls w) = None ->
  exists l w',
    getAllBookings w = (Ok l, w') /\
    length l = size (docs "bookings" w) /\
    forall entry,
      entry ∈ l <->
      exists key data,
        docs "bookings" w !! key = Some data /\
        entry = data ∪ {[ "id" := VString key ]}.
Proof.
  intros Hf. eexists _, _.
  split; [by apply getAllBookings_run_served|]. split.
  - by rewrite length_fmap, run_query_collection, length_map_to_list.
  - intros entry. rewrite list_elem_of_fmap. split.
    + intros ([key data] & -> & Hin).
      rewrite run_query_collection in Hin.
      apply elem_of_map_to_list in Hin. by exists key, data.
    + intros (key & data & Hdoc & ->). exists (key, data).
      split; [reflexivity|]. rewrite run_query_collection.
      by apply elem_of_map_to_list.
Qed.

Lemma getAllBookings_complete_witness :
  exists l w',
    getAllBookings (createBooking (sample_booking pending)
                      (quiet_world sample_db)).2 = (Ok l, w') /\
    length l =
      size (docs "bookings"
              (createBooking (sample_booking pending)
                 (quiet_world sample_db)).2) /\
    forall entry,
      entry ∈ l <->
      exists key data,
        docs "bookings"
          (createBooking (sample_booking pending)
             (quiet_world sample_db)).2 !! key = Some data /\
        entry = data ∪ {[ "id" := VString key ]}.
Proof.
  apply (getAllBookings_complete
           (createBooking (sample_booking pending) (quiet_world sample_db)).2).
  vm_compute. reflexivity.
Defined.

(** X20: a booking that was created is listed: after a successful
    [createBooking], a served listing holds an entry with the returned id,
    the status and the contact of the input and the time of creation. *)
Theorem createBooking_then_listed booking w id w' :
  createBooking booking w = (Ok id, w') ->
  fault w' (calls w') = None ->
  exists l w2 entry,
    getAllBookings w' = (Ok l, w2) /\
    entry ∈ l /\
    entry !! "id" = Some (VString id) /\
    entry !! "status" = Some (VString (Status_text (Booking.status booking))) /\
    entry !! "date" = Some (VString (Booking.date booking)) /\
    entry !! "time" = Some (VString (Booking.time booking)) /\
    entry !! "clientEmail" = Some (VString (Booking.clientEmail booking)) /\
    entry !! "createdAt" = Some (VTimestamp (clock w (ticks w))).
Proof.
  intros Hrun Hf.
  destruct (record_accepted_or_not w) as [Hacc|[[code Hc]|[Hc [old Htaken]]]].
  2: by rewrite (createBooking_rejected booking w code Hc) in Hrun.
  2: by rewrite (createBooking_id_taken booking w old Hc Htaken) in Hrun.
  pose proof (createBooking_record booking w Hacc) as Hrec.
  rewrite Hrun in Hrec. simpl in Hrec.
  assert (id = newBookingId w) as ->.
  { rewrite (createBooking_written booking w Hacc) in Hrun.
    destruct (bookTimeSlot _ _ _ (booking_written booking w)) as [[[]|e] w3];
      congruence. }
  eexists _, _, _. split; [by apply getAllBookings_run_served|].
  split.
  - apply list_elem_of_fmap.
    exists (newBookingId w,
            cleanBooking booking (clock w (ticks w)) (clock w (S (ticks w)))).
    split; [reflexivity|]. rewrite run_query_collection.
    apply elem_of_map_to_list. rewrite Hrec. apply lookup_insert_eq.
  - simpl. split; [by rewrite lookup_union_r|].
    repeat split; apply lookup_union_Some_l; reflexivity.
Qed.

Lemma createBooking_then_listed_witness :
  let w := quiet_world sample_db in
  exists l w2 entry,
    getAllBookings (createBooking (sample_booking pending) w).2 = (Ok l, w2) /\
    entry ∈ l /\
    entry !! "id" = Some (VString "ABCDEFGHIJKLMNOPQRST") /\
    entry !! "status" = Some (VString "pending") /\
    entry !! "date" = Some (VString "2024-06-01") /\
    entry !! "time" = Some (VString "10:00") /\
    entry !! "clientEmail" = Some (VString "a@x.com") /\
    entry !! "createdAt" = Some (VTimestamp 1717236000000).
Proof.
  intros w.
  apply (createBooking_then_listed (sample_booking pending) w
           "ABCDEFGHIJKLMNOPQRST"
           (createBooking (sample_booking pending) w).2).
  - exact (run_split (createBooking (sample_booking pending) w)
             (Ok "ABCDEFGHIJKLMNOPQRST") eq_refl).
  - vm_compute. reflexivity.
Defined.

(** X21: updating the status of a booking that does not exist fails with
    the store's not-found error and writes nothing. *)
Theorem updateBookingStatus_missing bookingId status w :
  docs "bookings" w !! bookingId = None ->
  fault w (calls w) = None ->
  (updateBookingStatus bookingId status w).1
    = Throw (FirestoreError "not-found") /\
  db (updateBookingStatus bookingId status w).2 = db w.
Proof.
  intros Hmissing Hf.
  by rewrite (updateBookingStatus_run_missing _ _ _ Hf Hmissing).
Qed.

Lemma updateBookingStatus_missing_witness :
  (updateBookingStatus "nobody" confirmed (quiet_world sample_db)).1
    = Throw (FirestoreError "not-found") /\
  db (updateBookingStatus "nobody" confirmed (quiet_world sample_db)).2
    = db (quiet_world sample_db).
Proof.
  apply (updateBookingStatus_missing "nobody" confirmed
           (quiet_world sample_db)); reflexivity.
Defined.

(** X22: on a stored booking a served update sets the status, whatever
    the status was before, stamps [updatedAt], and leaves every other
    field, every other booking and the calendar as they were. *)
Theorem updateBookingStatus_sets_status bookingId status w old :
  docs "bookings" w !! bookingId = Some old ->
  fault w (calls w) = None ->
  exists w',
    updateBookingStatus bookingId status w = (Ok tt, w') /\
    stored "bookings" bookingId "status" w'
      = Some (VString (Status_text status)) /\
    stored "bookings" bookingId "updatedAt" w'
      = Some (VTimestamp (clock w (ticks w))) /\
    (forall f, f ≠ "status" -> f ≠ "updatedAt" ->
       stored "bookings" bookingId f w' = old !! f) /\
    (forall key, key ≠ bookingId ->
       docs "bookings" w' !! key = docs "bookings" w !! key) /\
    docs "calendar" w' = docs "calendar" w.
Proof.
  intros Hold Hf. eexists.
  split; [by apply updateBookingStatus_run_served|].
  unfold stored. rewrite docs_write_doc, lookup_insert_eq. simpl.
  split; [apply lookup_union_Some_l; reflexivity|].
  split; [apply lookup_union_Some_l; reflexivity|].
  split; [|split].
  - intros f H1 H2. apply lookup_union_r.
    by rewrite lookup_insert_ne, lookup_singleton_ne.
  - intros key Hne. autorewrite with world. by rewrite lookup_insert_ne.
  - by rewrite docs_write_doc_ne.
Qed.

Lemma updateBookingStatus_sets_status_witness :
  let w := (createBooking (sample_booking cancelled)
              (quiet_world sample_db)).2 in
  let old := cleanBooking (sample_booking cancelled)
               1717236000000 1717236000001 in
  exists w',
    updateBookingStatus "ABCDEFGHIJKLMNOPQRST" confirmed w = (Ok tt, w') /\
    stored "bookings" "ABCDEFGHIJKLMNOPQRST" "status" w'
      = Some (VString "confirmed") /\
    stored "bookings" "ABCDEFGHIJKLMNOPQRST" "updatedAt" w'
      = Some (VTimestamp (clock w (ticks w))) /\
    (forall f, f ≠ "status" -> f ≠ "updatedAt" ->
       stored "bookings" "ABCDEFGHIJKLMNOPQRST" f w' = old !! f) /\
    (forall key, key ≠ "ABCDEFGHIJKLMNOPQRST" ->
       docs "bookings" w' !! key = docs "bookings" w !! key) /\
    docs "calendar" w' = docs "calendar" w.
Proof.
  intros w old.
  apply (updateBookingStatus_sets_status "ABCDEFGHIJKLMNOPQRST" confirmed w);
    vm_compute; reflexivity.
Defined.

(** ** The calendar module *)

(** X23: a stored day is available exactly when its flag is set and it
    either has no slots list or has a slot that is available; a day with
    an empty slots list is not available, whatever its flag. *)
Theorem isAvailable_true_iff (d : Calendar.CalendarDoc) :
  (Calendar.isAvailable (Some d) = true <->
   Calendar.doc_available d = true /\
   (Calendar.doc_slots d = None \/
    exists slots s,
      Calendar.doc_slots d = Some slots /\
      s ∈ slots /\ Calendar.available s = true)) /\
  (Calendar.doc_slots d = Some [] -> Calendar.isAvailable (Some d) = false).
Proof.
  unfold Calendar.isAvailable. split.
  - destruct (Calendar.doc_available d); simpl;
      [|split; [discriminate | by intros [? _]]].
    destruct (Calendar.doc_slots d) as [slots|];
      [|split; [by auto | reflexivity]].
    rewrite existsb_exists. split.
    + intros (s & Hin & Hs). split; [done|]. right.
      exists slots, s. by rewrite list_elem_of_In.
    + intros [_ [[=]|(slots' & s & [= <-] & Hin & Hs)]].
      exists s. by rewrite <- list_elem_of_In.
  - intros ->. simpl. apply andb_false_r.
Qed.

(** X24: the default slots are the nine hours from 09:00 to 17:00 in
    order, each available, so that a day that is flagged available and
    given them is available. *)
Theorem generateDefaultSlots_hours :
  map Calendar.time generateDefaultSlots =
    ["09:00"; "10:00"; "11:00"; "12:00"; "13:00"; "14:00"; "15:00";
     "16:00"; "17:00"] /\
  Forall (fun s => Calendar.available s = true) generateDefaultSlots /\
  Calendar.isAvailable
    (Some (Calendar.mkCalendarDoc true (Some generateDefaultSlots))) = true.
Proof.
  split; [reflexivity|]. split; [|reflexivity].
  repeat constructor.
Qed.

Lemma getCalendar_run_served date w :
  fault w (calls w) = None ->
  getCalendar date w = (Ok (docs "calendar" w !! date), count_call w).
Proof.
  intros Hf. unfold getCalendar. run_store. rewrite Hf.
  autorewrite with world. by destruct (docs "calendar" w !! date).
Qed.

(** X25: [updateCalendar] merges: after a served update, a served
    [getCalendar] of the date returns a document whose [updatedAt] is the
    time of the update, whose other fields are the ones given where given,
    and the ones stored before where not. *)
Theorem updateCalendar_then_get date updates w :
  fault w (calls w) = None ->
  fault w (S (calls w)) = None ->
  exists data w2,
    getCalendar date (updateCalendar date updates w).2
      = (Ok (Some data), w2) /\
    data !! "updatedAt" = Some (VTimestamp (clock w (ticks w))) /\
    forall f, f ≠ "updatedAt" ->
      data !! f =
        match updates !! f with
        | Some v => Some v
        | None => stored "calendar" date f w
        end.
Proof.
  intros Hwrite Hread.
  rewrite (updateCalendar_run_served _ _ _ Hwrite). simpl.
  rewrite getCalendar_run_served by exact Hread.
  autorewrite with world. rewrite lookup_insert_eq.
  eexists _, _. split; [reflexivity|]. unfold stored.
  destruct (docs "calendar" w !! date) as [old|]; simpl.
  - split; [apply lookup_union_Some_l, lookup_insert_eq|].
    intros f Hne. rewrite lookup_union, lookup_insert_ne by done.
    destruct (updates !! f), (old !! f); reflexivity.
  - split; [apply lookup_insert_eq|].
    intros f Hne. rewrite lookup_insert_ne by done.
    by destruct (updates !! f).
Qed.

Lemma updateCalendar_then_get_witness :
  exists data w2,
    getCalendar "2024-06-01"
      (updateCalendar "2024-06-01" {[ "isAvailable" := VBoolean false ]}
         (quiet_world sample_db)).2
      = (Ok (Some data), w2) /\
    data !! "updatedAt" = Some (VTimestamp 1717236000000) /\
    forall f, f ≠ "updatedAt" ->
      data !! f =
        match ({[ "isAvailable" := VBoolean false ]} : DocumentData) !! f with
        | Some v => Some v
        | None => stored "calendar" "2024-06-01" f (quiet_world sample_db)
        end.
Proof.
  apply (updateCalendar_then_get "2024-06-01"
           {[ "isAvailable" := VBoolean false ]} (quiet_world sample_db));
    reflexivity.
Defined.

Lemma getAvailabilityRange_result startDate endDate w l w2 :
  getAvailabilityRange startDate endDate w = (Ok l, w2) ->
  l = (run_query
         (query "calendar"
            [where_ "date" op_ge startDate; where_ "date" op_le endDate])
         (docs "calendar" w)).*2.
Proof.
  unfold getAvailabilityRange. run_store.
  destruct (fault w (calls w)); [discriminate|]. by intros [= <- _].
Qed.

(** X26: a day written by [updateCalendar] without a date field, where
    none was stored, is in the calendar but in the result of no range
    query. *)
Theorem updateCalendar_hidden_from_ranges date updates w :
  stored "calendar" date "date" w = None ->
  updates !! "date" = None ->
  fault w (calls w) = None ->
  exists data,
    docs "calendar" (updateCalendar date updates w).2 !! date = Some data /\
    forall startDate endDate l w2,
      getAvailabilityRange startDate endDate (updateCalendar date updates w).2
        = (Ok l, w2) ->
      data ∉ l.
Proof.
  intros Hstored Hgiven Hf.
  rewrite (updateCalendar_run_served _ _ _ Hf). simpl.
  rewrite docs_write_doc, lookup_insert_eq. eexists. split; [reflexivity|].
  intros startDate endDate l w2 Hrun Hin.
  apply getAvailabilityRange_result in Hrun as ->.
  apply range_elem in Hin as (key & _ & Hin).
  unfold within in Hin. unfold stored in Hstored.
  autorewrite with world in Hin.
  destruct (docs "calendar" w !! date) as [old|]; simpl in *.
  - rewrite lookup_union, lookup_insert_ne, Hgiven, Hstored in Hin by done.
    discriminate.
  - rewrite lookup_insert_ne, Hgiven in Hin by done. discriminate.
Qed.

Lemma updateCalendar_hidden_from_ranges_witness :
  exists data,
    docs "calendar"
      (updateCalendar "2024-07-01" {[ "isAvailable" := VBoolean false ]}
         (quiet_world sample_db)).2 !! "2024-07-01" = Some data /\
    forall startDate endDate l w2,
      getAvailabilityRange startDate endDate
        (updateCalendar "2024-07-01" {[ "isAvailable" := VBoolean false ]}
           (quiet_world sample_db)).2
        = (Ok l, w2) ->
      data ∉ l.
Proof.
  apply (updateCalendar_hidden_from_ranges "2024-07-01"
           {[ "isAvailable" := VBoolean false ]} (quiet_world sample_db));
    reflexivity.
Defined.

(** ** The submit handler *)

Lemma truthy_Some x : truthy x = true -> x = Some (default "" x) /\ default "" x ≠ "".
Proof. by destruct x as [[|c s]|]. Qed.

Lemma handleSubmit_complete bookingData formData view w service :
  BookingData.service bookingData = Some service ->
  truthy (BookingData.date bookingData) = true ->
  truthy (BookingData.time bookingData) = true ->
  handleSubmit bookingData formData view w =
    match createBooking
            (submitted_booking service
               (default "" (BookingData.date bookingData))
               (default "" (BookingData.time bookingData)) formData)
            (tick (tick w)) with
    | (Ok bookingId, w') =>
        (View.mk false (Some slot_available)
           (toast_success "Booking created successfully!" :: View.toasts view)
           (formData :: View.onSubmit_calls view)
           (Some bookingId),
         w')
    | (Throw _, w') =>
        (View.mk false (Some slot_taken)
           (toast_error "Failed to create booking. Slot may be taken."
              :: View.toasts view)
           (View.onSubmit_calls view)
           (View.bookingId view),
         w')
    end.
Proof.
  intros Hservice Hdate Htime. unfold handleSubmit.
  by rewrite Hservice, Hdate, Htime.
Qed.

(** X27: with the service, the date or the time missing or empty, the
    handler only shows a notice: it reads no clock, calls no store and
    leaves the state of the card as it was. *)
Theorem handleSubmit_missing_information bookingData formData view w :
  BookingData.service bookingData = None \/
  truthy (BookingData.date bookingData) = false \/
  truthy (BookingData.time bookingData) = false ->
  handleSubmit bookingData formData view w =
    (View.mk (View.isSubmitting view) (View.slotStatus view)
       (toast_error "Missing booking information" :: View.toasts view)
       (View.onSubmit_calls view) (View.bookingId view),
     w).
Proof.
  intros Hmissing. unfold handleSubmit.
  destruct (BookingData.service bookingData); [|reflexivity].
  destruct Hmissing as [[=]|[-> | ->]]; [reflexivity|].
  by rewrite andb_false_r.
Qed.

Lemma handleSubmit_missing_information_witness :
  handleSubmit
    (BookingData.mk (Some (Service.mk (Some "svc1") (Some "Cut")))
       (Some "2024-06-01") (Some "") None)
    sample_form blank_view (quiet_world sample_db) =
    (View.mk false None [toast_error "Missing booking information"] [] None,
     quiet_world sample_db).
Proof.
  apply (handleSubmit_missing_information
           (BookingData.mk (Some (Service.mk (Some "svc1") (Some "Cut")))
              (Some "2024-06-01") (Some "") None)
           sample_form blank_view (quiet_world sample_db)).
  right. right. reflexivity.
Defined.

(** X28: a booking submitted through the card is stored as pending, for
    the date and time chosen and with the contact typed in, whenever the
    store accepts the record. *)
Theorem handleSubmit_stores_pending bookingData formData view w service :
  BookingData.service bookingData = Some service ->
  truthy (BookingData.date bookingData) = true ->
  truthy (BookingData.time bookingData) = true ->
  record_accepted (tick (tick w)) ->
  let w' := (handleSubmit bookingData formData view w).2 in
  let id := newBookingId w in
  stored "bookings" id "status" w' = Some (VString "pending") /\
  stored "bookings" id "date" w' = VString <$> BookingData.date bookingData /\
  stored "bookings" id "time" w' = VString <$> BookingData.time bookingData /\
  stored "bookings" id "clientName" w'
    = Some (VString (FormData.name formData)) /\
  stored "bookings" id "clientEmail" w'
    = Some (VString (FormData.email formData)) /\
  stored "bookings" id "clientPhone" w'
    = Some (VString (FormData.phone formData)) /\
  stored "bookings" id "clientMessage" w'
    = Some (VString (FormData.message formData)).
Proof.
  intros Hservice Hdate Htime Hacc w' id. unfold w', id.
  rewrite (handleSubmit_complete _ _ _ _ _ Hservice Hdate Htime).
  pose proof (createBooking_record
                (submitted_booking service
                   (default "" (BookingData.date bookingData))
                   (default "" (BookingData.time bookingData)) formData)
                (tick (tick w)) Hacc) as Hrec.
  destruct (createBooking _ (tick (tick w))) as [[bookingId|e] w2];
    simpl in *; unfold stored; rewrite Hrec;
    change (newBookingId (tick (tick w))) with (newBookingId w);
    rewrite lookup_insert_eq; simpl;
    destruct (truthy_Some _ Hdate) as [-> _];
    destruct (truthy_Some _ Htime) as [-> _];
    repeat split; reflexivity.
Qed.

Lemma handleSubmit_stores_pending_witness :
  let w := quiet_world sample_db in
  let w' := (handleSubmit sample_request sample_form blank_view w).2 in
  let id := newBookingId w in
  stored "bookings" id "status" w' = Some (VString "pending") /\
  stored "bookings" id "date" w' = VString <$> BookingData.date sample_request /\
  stored "bookings" id "time" w' = VString <$> BookingData.time sample_request /\
  stored "bookings" id "clientName" w' = Some (VString "A") /\
  stored "bookings" id "clientEmail" w' = Some (VString "a@x.com") /\
  stored "bookings" id "clientPhone" w' = Some (VString "+1") /\
  stored "bookings" id "clientMessage" w' = Some (VString "").
Proof.
  apply (handleSubmit_stores_pending sample_request sample_form blank_view
           (quiet_world sample_db) (Service.mk (Some "svc1") (Some "Cut")));
    try reflexivity.
  split; reflexivity.
Defined.



(** X30: the card cannot tell a conflict from an outage: when the store
    rejects the write of the record, the card shows the slot as taken
    although nothing was booked and the database is as it was. *)
Theorem handleSubmit_outage_shown_as_taken
    bookingData formData view w service code :
  BookingData.service bookingData = Some service ->
  truthy (BookingData.date bookingData) = true ->
  truthy (BookingData.time bookingData) = true ->
  fault w (calls w) = Some code ->
  let '(view', w') := handleSubmit bookingData formData view w in
  View.slotStatus view' = Some slot_taken /\
  head (View.toasts view')
    = Some (toast_error "Failed to create booking. Slot may be taken.") /\
  db w' = db w.
Proof.
  intros Hservice Hdate Htime Hf.
  rewrite (handleSubmit_complete _ _ _ _ _ Hservice Hdate Htime).
  by rewrite (createBooking_rejected _ (tick (tick w)) code Hf).
Qed.

Lemma handleSubmit_outage_shown_as_taken_witness :
  let '(view', w') :=
    handleSubmit sample_request sample_form blank_view
      (faulty_world 0 "unavailable" sample_db) in
  View.slotStatus view' = Some slot_taken /\
  head (View.toasts view')
    = Some (toast_error "Failed to create booking. Slot may be taken.") /\
  db w' = db (faulty_world 0 "unavailable" sample_db).
Proof.
  apply (handleSubmit_outage_shown_as_taken sample_request sample_form
           blank_view (faulty_world 0 "unavailable" sample_db)
           (Service.mk (Some "svc1") (Some "Cut")) "unavailable");
    reflexivity.
Defined.

(** ** Error propagation, completed *)

Lemma settle_all_rejections dates isAvailable w :
  exists later,
    rejections
      (settle_all
         (map (fun date => setDateAvailability date isAvailable None) dates)
         w).2
    = (later ++ rejections w)%list.
Proof.
  destruct (settle_all_setDateAvailability dates isAvailable w)
    as [[Hsame _]|(later & e & Hgrown & _)].
  - by exists [].
  - exists (later ++ [e])%list. by rewrite <- app_assoc.
Qed.

Lemma settle_all_first dates isAvailable w :
  let run :=
    settle_all
      (map (fun date => setDateAvailability date isAvailable None) dates) w in
  ((forall i, i < length dates -> fault w (calls w + i) = None) /\
   (exists l, first_rejection run.1 = Ok l) /\
   rejections run.2 = rejections w) \/
  (exists i code later,
     i < length dates /\
     fault w (calls w + i) = Some code /\
     (forall j, j < i -> fault w (calls w + j) = None) /\
     first_rejection run.1 = Throw (FirestoreError code) /\
     rejections run.2 = (later ++ FirestoreError code :: rejections w)%list).
Proof.
  revert w. induction dates as [|d dates IH]; intros w; simpl.
  { left. split; [intros i Hi; lia|]. split; [eauto | reflexivity]. }
  destruct (fault w (calls w)) as [code|] eqn:Hf.
  - rewrite (setDateAvailability_run_rejected _ _ _ _ code Hf).
    destruct (settle_all_rejections dates isAvailable
                (record_rejection (FirestoreError code) (count_call (tick w))))
      as [later Hlater].
    destruct (settle_all _ (record_rejection _ _)) as [rs w2]. simpl in *.
    right. exists 0, code, later.
    rewrite Nat.add_0_r. split; [lia|]. split; [exact Hf|].
    split; [intros j Hj; lia|]. split; [reflexivity | exact Hlater].
  - rewrite (setDateAvailability_run_served _ _ _ _ Hf).
    set (w1 := write_doc _ _ _ _).
    specialize (IH w1). simpl in IH.
    destruct (settle_all _ w1) as [rs w2]. simpl in *.
    change (calls w1) with (S (calls w)) in IH.
    change (fault w1) with (fault w) in IH.
    change (rejections w1) with (rejections w) in IH.
    destruct IH as [(Hall & [l Hl] & Hrej)
                   |(i & code & later & Hi & Hcode & Hbefore & Hfirst & Hrej)].
    + left. split; [|split; [rewrite Hl; eauto | exact Hrej]].
      intros [|i] Hi; [by rewrite Nat.add_0_r|].
      replace (calls w + S i) with (S (calls w) + i) by lia.
      apply Hall. lia.
    + right. exists (S i), code, later.
      split; [lia|].
      split; [by replace (calls w + S i) with (S (calls w) + i) by lia|].
      split; [|split; [by rewrite Hfirst | exact Hrej]].
      intros [|j] Hj; [by rewrite Nat.add_0_r|].
      replace (calls w + S j) with (S (calls w) + j) by lia.
      apply Hbefore. lia.
Qed.

Lemma setBatchAvailability_reraises_first dates isAvailable :
  batch_reraises_first dates isAvailable.
Proof.
  intros w. simpl. rewrite setBatchAvailability_run. simpl.
  destruct (settle_all_batch dates isAvailable w) as (Hcalls & Hmarked & _).
  split; [exact Hcalls|]. split; [exact Hmarked|].
  destruct (settle_all_first dates isAvailable w)
    as [(Hall & [l Hl] & Hrej)
       |(i & code & later & Hi & Hcode & Hbefore & Hfirst & Hrej)].
  - left. by rewrite Hl.
  - right. exists i, code, later. by rewrite Hfirst.
Qed.

Lemma subscribeToAvailability_logs startDate endDate callback :
  logs_store_errors (subscribeToAvailability startDate endDate callback).
Proof.
  intros w. unfold deliver.
  destruct (fault w (calls w)) as [code|]; simpl; eauto.
Qed.

Lemma subscribeToBookings_logs callback :
  logs_store_errors (subscribeToBookings callback).
Proof.
  intros w. unfold deliver.
  destruct (fault w (calls w)) as [code|]; simpl; eauto.
Qed.

(** C3, at a store that rejects the first call: [createBooking] ends with
    its own error, not with the one the store raised, and the listeners of
    the two subscriptions end without any error, the one of the store
    being logged. *)
Lemma createBooking_and_listeners_do_not_reraise :
  let w := faulty_world 0 "unavailable" sample_db in
  (let '(r, w') := createBooking (sample_booking pending) w in
   rejections w' = [FirestoreError "unavailable"] /\
   r = Throw (Error "Booking failed. Please try again.") /\
   r ≠ Throw (FirestoreError "unavailable")) /\
  (let '(r, w') :=
     deliver (subscribeToAvailability "2024-06-01" "2024-06-30"
                (fun _ => Ok tt)) w in
   rejections w' = [FirestoreError "unavailable"] /\
   r = Ok [console_error (FirestoreError "unavailable")] /\
   r ≠ Throw (FirestoreError "unavailable")) /\
  (let '(r, w') := deliver (subscribeToBookings (fun _ => Ok tt)) w in
   rejections w' = [FirestoreError "unavailable"] /\
   r = Ok [console_error (FirestoreError "unavailable")] /\
   r ≠ Throw (FirestoreError "unavailable")).
Proof. vm_compute. repeat split; try reflexivity; discriminate. Qed.

(** C3, as the code has it.  [setDateAvailability], [getDateAvailability],
    [getAvailabilityRange], [bookTimeSlot], [getAllBookings] and
    [updateBookingStatus] end with the error the store raised, unchanged
    and without calling the store again.  [setBatchAvailability] sends the
    write of every date out and has every served one committed, whatever
    becomes of the others, and ends with the error of the first write the
    store rejected, unchanged.  [createBooking] ends with its own fixed
    error instead.  The listeners of [subscribeToAvailability] and
    [subscribeToBookings] raise nothing: the error of the store is logged
    and the callback is not called. *)
Theorem store_errors_reraised_replaced_or_logged :
  (forall date isAvailable slots,
     reraises (setDateAvailability date isAvailable slots)) /\
  (forall dates isAvailable, batch_reraises_first dates isAvailable) /\
  (forall date, reraises (getDateAvailability date)) /\
  (forall startDate endDate,
     reraises (getAvailabilityRange startDate endDate)) /\
  (forall date time clientEmail,
     reraises (bookTimeSlot date time clientEmail)) /\
  reraises getAllBookings /\
  (forall bookingId status,
     reraises (updateBookingStatus bookingId status)) /\
  (forall booking,
     replaces_errors (createBooking booking)
       (Error "Booking failed. Please try again.")) /\
  (forall startDate endDate callback,
     logs_store_errors (subscribeToAvailability startDate endDate callback)) /\
  (forall callback, logs_store_errors (subscribeToBookings callback)).
Proof.
  split; [exact setDateAvailability_reraises|].
  split; [exact setBatchAvailability_reraises_first|].
  split; [exact getDateAvailability_reraises|].
  split; [exact getAvailabilityRange_reraises|].
  split; [exact bookTimeSlot_reraises|].
  split; [exact getAllBookings_reraises|].
  split; [exact updateBookingStatus_reraises|].
  split; [exact createBooking_replaces_errors|].
  split; [exact subscribeToAvailability_logs | exact subscribeToBookings_logs].
Qed.
